(** * Version-aware (de)serialization of the RunDescriber

    A shallow embedding of
    [qcodes/dataset/descriptions/versioning/serialization.py]
    and the properties of its version dispatch, converter table and
    text codecs. *)

From Stdlib Require Import ZArith Floats.PrimFloat Floats.FloatOps Floats.SpecFloat Uint63.
From stdpp Require Import base option list strings pretty gmap.

Local Open Scope Z_scope.

(** ** Python values

    The plain data that [json.loads] and [yaml.load] hand to this module
    and that [_to_dict] produces.  A mapping carries its class: the
    built-in [dict], or the ordered mapping of the YAML parser. *)

Inductive mapping_class : Type :=
| PlainDict
| OrderedMap.

#[warnings="-register-all"]
Inductive value : Type :=
| VNone
| VBool (b : bool)
| VInt (z : Z)
| VFloat (f : float)
| VStr (s : string)
| VTuple (items : list value)
| VList (items : list value)
| VDict (cls : mapping_class) (items : list (value * value)).

(** Python exceptions raised on the paths of this module. *)
Inductive exn : Type :=
| KeyError (key : value)
| TypeError (msg : string)
| ValueError (msg : string)
| RuntimeError (msg : string) (dct : value)
| ReferenceError
| JSONDecodeError
| YAMLError.

Inductive result (A : Type) : Type :=
| Ok (a : A)
| Raise (e : exn).
Arguments Ok {A} a.
Arguments Raise {A} e.

(** [f == n] for a float [f] and an integer [n]: Python compares the
    two exactly. *)
Definition float_eq_Z (f : float) (n : Z) : bool :=
  match Prim2SF f with
  | S754_zero _ => n =? 0
  | S754_finite s m e =>
      let z := if s then Z.neg m else Z.pos m in
      if 0 <=? e then z * 2 ^ e =? n else z =? n * 2 ^ (- e)
  | _ => false
  end.

(** [v == n] for an integer literal [n], as in [dct_version == 0]. *)
Definition py_eq_int (v : value) (n : Z) : bool :=
  match v with
  | VBool b => Z.b2z b =? n
  | VInt z => z =? n
  | VFloat f => float_eq_Z f n
  | _ => false
  end.

(** ** Subscription and the [dict] constructor *)

(** The entry stored under the string key [key]; a key of another type
    never equals a string. *)
Fixpoint dict_get (items : list (value * value)) (key : string) : option value :=
  match items with
  | [] => None
  | (VStr s, v) :: rest => if String.eqb s key then Some v else dict_get rest key
  | _ :: rest => dict_get rest key
  end.

(** [d[key]] for a string literal [key], as in [dct['version']]. *)
Definition getitem (d : value) (key : string) : result value :=
  match d with
  | VDict _ items =>
      match dict_get items key with
      | Some v => Ok v
      | None => Raise (KeyError (VStr key))
      end
  | VStr _ => Raise (TypeError "string indices must be integers")
  | VTuple _ | VList _ => Raise (TypeError "indices must be integers or slices, not str")
  | VNone | VBool _ | VInt _ | VFloat _ => Raise (TypeError "object is not subscriptable")
  end.

Fixpoint hashable (v : value) : bool :=
  match v with
  | VNone | VBool _ | VInt _ | VFloat _ | VStr _ => true
  | VTuple items => forallb hashable items
  | VList _ | VDict _ _ => false
  end.

(** The integer a [bool] or [int] stands for in a comparison. *)
Definition as_int (v : value) : option Z :=
  match v with
  | VBool b => Some (Z.b2z b)
  | VInt z => Some z
  | _ => None
  end.

(** [a == b] on hashable values, the comparison [dict] uses on keys. *)
Fixpoint py_eq (a b : value) : bool :=
  match a, b with
  | VNone, VNone => true
  | VStr s, VStr t => String.eqb s t
  | VFloat f, VFloat g => PrimFloat.eqb f g
  | VFloat f, (VBool _ | VInt _) => from_option (float_eq_Z f) false (as_int b)
  | (VBool _ | VInt _), VFloat g => from_option (float_eq_Z g) false (as_int a)
  | (VBool _ | VInt _), (VBool _ | VInt _) =>
      bool_decide (as_int a = as_int b)
  | VTuple xs, VTuple ys =>
      (fix go (xs ys : list value) : bool :=
         match xs, ys with
         | [], [] => true
         | x :: xs', y :: ys' => py_eq x y && go xs' ys'
         | _, _ => false
         end) xs ys
  | _, _ => false
  end.

(** [d[k] = v] on the items of a dict: an equal key keeps its place and
    takes the new entry, a new key goes last. *)
Fixpoint dict_setitem (items : list (value * value)) (k v : value)
  : list (value * value) :=
  match items with
  | [] => [(k, v)]
  | (k', v') :: rest =>
      if py_eq k' k then (k', v) :: rest else (k', v') :: dict_setitem rest k v
  end.

(** One element of the iterable given to [dict]: a sequence of length two. *)
Definition pair_of_element (e : value) : result (value * value) :=
  match e with
  | VTuple [k; v] | VList [k; v] =>
      if hashable k then Ok (k, v) else Raise (TypeError "unhashable type")
  | VStr (String a (String b EmptyString)) =>
      Ok (VStr (String a EmptyString), VStr (String b EmptyString))
  | VDict _ [(k1, _); (k2, _)] => Ok (k1, k2)
  | VTuple _ | VList _ | VStr _ | VDict _ _ =>
      Raise (ValueError "dictionary update sequence element has length other than 2")
  | VNone | VBool _ | VInt _ | VFloat _ =>
      Raise (TypeError "cannot convert dictionary update sequence element to a sequence")
  end.

Fixpoint dict_update_from_seq (acc : list (value * value)) (elements : list value)
  : result (list (value * value)) :=
  match elements with
  | [] => Ok acc
  | e :: rest =>
      match pair_of_element e with
      | Ok (k, v) => dict_update_from_seq (dict_setitem acc k v) rest
      | Raise err => Raise err
      end
  end.

(** The characters of a string, as Python iterates over it. *)
Fixpoint chars (s : string) : list value :=
  match s with
  | EmptyString => []
  | String a rest => VStr (String a EmptyString) :: chars rest
  end.

(** The built-in [dict(x)]: a new plain dict with the entries of the
    mapping [x] (the entries themselves are not copied), or built from
    an iterable of pairs. *)
Definition py_dict (x : value) : result value :=
  match x with
  | VDict _ items => Ok (VDict PlainDict items)
  | VTuple elements | VList elements =>
      match dict_update_from_seq [] elements with
      | Ok items => Ok (VDict PlainDict items)
      | Raise err => Raise err
      end
  | VStr s =>
      match dict_update_from_seq [] (chars s) with
      | Ok items => Ok (VDict PlainDict items)
      | Raise err => Raise err
      end
  | VNone | VBool _ | VInt _ | VFloat _ => Raise (TypeError "object is not iterable")
  end.

(** The class of a mapping. *)
Definition class_of (v : value) : option mapping_class :=
  match v with
  | VDict cls _ => Some cls
  | _ => None
  end.

(** A value with every mapping in it, at any depth, taken as a plain
    [dict]: what is left of a value when the class of its mappings is
    disregarded. *)
Fixpoint plain (v : value) : value :=
  match v with
  | VTuple items => VTuple (map plain items)
  | VList items => VList (map plain items)
  | VDict _ items => VDict PlainDict (map (λ kv, (plain kv.1, plain kv.2)) items)
  | _ => v
  end.

(** ** The imported parts of the package

    [serialization.py] imports the two RunDescriber classes (the
    current one and [v0]) and the two converters between them; their
    code is in other files of the package.  They enter as an interface:
    the contents of an object of each class, the class method
    [_from_dict] that builds such contents from a dict or raises, the
    method [_to_dict], and the conversion of the contents. *)
Class Documents : Type := {
  v0_RunDescriber : Type;
  current_RunDescriber : Type;
  v0_from_dict : value → result v0_RunDescriber;
  v0_to_dict : v0_RunDescriber → value;
  current_from_dict : value → result current_RunDescriber;
  current_to_dict : current_RunDescriber → value;
  v0_to_v1 : v0_RunDescriber → current_RunDescriber;
  v1_to_v0 : current_RunDescriber → v0_RunDescriber;
}.

(** The text libraries: [json.dumps], [json.loads], and [dump] and
    [load] of the [YAML] object. *)
Class TextLibraries : Type := {
  json_dumps : value → result string;
  json_loads : string → result value;
  yaml_dump : value → result string;
  yaml_load : string → result value;
}.

(** ** The object store

    A RunDescriber is an object: a variable holds a reference to it, and
    two references are the same instance when they are the same
    location. *)
Definition loc : Type := positive.

Section Store.
Context {docs : Documents}.

(** [SomeRunDescriber = Union[current.RunDescriber, v0.RunDescriber]] *)
Inductive SomeRunDescriber : Type :=
| v0_obj (d : v0_RunDescriber)
| current_obj (d : current_RunDescriber).

(** Modelled from the spec: the classes are not in this file.  Every
    document variant carries its own version tag in its [version]
    field, 0 for [v0.RunDescriber] and 1 for the current class. *)
Definition version (o : SomeRunDescriber) : Z :=
  match o with
  | v0_obj _ => 0
  | current_obj _ => 1
  end.

#[local] Abbreviation heap := (gmap loc SomeRunDescriber).

(** A computation over the store that returns or raises. *)
Definition M (A : Type) : Type := heap → result A * heap.

Definition ret {A} (a : A) : M A := λ h, (Ok a, h).
Definition raise {A} (e : exn) : M A := λ h, (Raise e, h).
Definition bind {A B} (m : M A) (k : A → M B) : M B :=
  λ h, match m h with
       | (Ok a, h') => k a h'
       | (Raise e, h') => (Raise e, h')
       end.
Definition lift {A} (r : result A) : M A := λ h, (r, h).

#[global] Instance M_ret : MRet M := @ret.
#[global] Instance M_bind : MBind M := λ A B k m, bind m k.

(** A new object; its location is not in use. *)
Definition alloc (o : SomeRunDescriber) : M loc :=
  λ h, let l := fresh (dom h) in (Ok l, <[l := o]> h).

(** The object behind a reference.  Every reference a program holds
    is in the store; [ReferenceError] stands for the other case. *)
Definition deref (l : loc) : M SomeRunDescriber :=
  λ h, match h !! l with
       | Some o => (Ok o, h)
       | None => (Raise ReferenceError, h)
       end.
End Store.

Abbreviation heap := (gmap loc SomeRunDescriber).

(** ** serialization.py *)

Definition CURRENT_VERSION : Z := 1.
Definition STORAGE_VERSION : Z := 0.

(** The error of the last branch of [from_dict_to_native]: a
    [RuntimeError] whose text ends in the [repr] of the dict.  The
    specification calls it [UnknownVersionError]. *)
Definition UnknownVersionError (dct : value) : exn :=
  RuntimeError
    "Unknown version of run describer dictionary, can't deserialize. The dictionary is "
    dct.

(** The [KeyError] of a failed lookup in [_converters]; its argument is
    the key, a tuple.  The specification calls it
    [UnsupportedConversionError]. *)
Definition UnsupportedConversionError (key : Z * Z) : exn :=
  KeyError (VTuple [VInt key.1; VInt key.2]).

Section Serialization.
Context {docs : Documents}.

(** *** Calls into the imported classes and converters *)

(** [v0.RunDescriber._from_dict(dct)]: a new object of the class. *)
Definition v0_RunDescriber_from_dict (dct : value) : M loc :=
  d ← lift (v0_from_dict dct); alloc (v0_obj d).

(** [current.RunDescriber._from_dict(dct)] *)
Definition current_RunDescriber_from_dict (dct : value) : M loc :=
  d ← lift (current_from_dict dct); alloc (current_obj d).

(** [desc.version] *)
Definition get_version (desc : loc) : M Z :=
  o ← deref desc; mret (version o).

(** [desc._to_dict()], the method of the object's own class. *)
Definition to_dict (o : SomeRunDescriber) : value :=
  match o with
  | v0_obj d => v0_to_dict d
  | current_obj d => current_to_dict d
  end.

Definition _to_dict (desc : loc) : M value :=
  o ← deref desc; mret (to_dict o).

(** [v0_to_v1(old)] builds a new object of the current class from an
    object of class v0 (a conversion produces a new document instance);
    on an object of the other class, which its signature excludes, the
    call fails. *)
Definition call_v0_to_v1 (old : loc) : M loc :=
  o ← deref old;
  match o with
  | v0_obj d => alloc (current_obj (v0_to_v1 d))
  | current_obj _ => raise (TypeError "v0_to_v1: not a v0.RunDescriber")
  end.

(** [v1_to_v0(new)] *)
Definition call_v1_to_v0 (new : loc) : M loc :=
  o ← deref new;
  match o with
  | current_obj d => alloc (v0_obj (v1_to_v0 d))
  | v0_obj _ => raise (TypeError "v1_to_v0: not a current RunDescriber")
  end.

(** *** The converter table *)

(** keys: (from_version, to_version) *)
Definition _converters : gmap (Z * Z) (loc → M loc) :=
  <[(0, 0) := λ x, mret x]>
  (<[(0, 1) := call_v0_to_v1]>
  (<[(1, 0) := call_v1_to_v0]>
  (<[(1, 1) := λ x, mret x]> ∅))).

(** [_converters[key]] *)
Definition converters_getitem (key : Z * Z) : M (loc → M loc) :=
  match _converters !! key with
  | Some f => mret f
  | None => raise (UnsupportedConversionError key)
  end.

(** *** python dict *)

Definition from_dict_to_native (dct : value) : M loc :=
  dct_version ← lift (getitem dct "version");
  if py_eq_int dct_version 0 then v0_RunDescriber_from_dict dct
  else if py_eq_int dct_version 1 then current_RunDescriber_from_dict dct
  else raise (UnknownVersionError dct).

Definition from_dict_to_current (dct : value) : M loc :=
  desc ← from_dict_to_native dct;
  v ← get_version desc;
  f ← converters_getitem (v, CURRENT_VERSION);
  f desc.

Definition to_dict_as_version (desc : loc) (version : Z) : M value :=
  v ← get_version desc;
  f ← converters_getitem (v, version);
  d ← f desc;
  _to_dict d.

Definition to_dict_for_storage (desc : loc) : M value :=
  to_dict_as_version desc STORAGE_VERSION.

Context {libs : TextLibraries}.

(** *** JSON *)

Definition to_json_for_storage (desc : loc) : M string :=
  d ← to_dict_for_storage desc; lift (json_dumps d).

Definition to_json_as_version (desc : loc) (version : Z) : M string :=
  d ← to_dict_as_version desc version; lift (json_dumps d).

Definition from_json_to_current (json_str : string) : M loc :=
  d ← lift (json_loads json_str); from_dict_to_current d.

Definition from_json_to_native (json_str : string) : M loc :=
  d ← lift (json_loads json_str); from_dict_to_native d.

(** *** YAML *)

(** The stream is local to the call: what [dump] writes to it is what
    [getvalue] returns. *)
Definition to_yaml_for_storage (desc : loc) : M string :=
  d ← to_dict_for_storage desc; lift (yaml_dump d).

(** [yaml.load] returns an ordered mapping; [dict] makes a dict of it. *)
Definition from_yaml_to_current (yaml_str : string) : M loc :=
  loaded ← lift (yaml_load yaml_str);
  ser ← lift (py_dict loaded);
  from_dict_to_current ser.
End Serialization.

(** ** A small instance

    Two document classes, two converters and two text formats that fit
    the interfaces above, on which the statements below are
    evaluated. *)
Module Sample.

Definition rbind {A B} (r : result A) (k : A → result B) : result B :=
  match r with
  | Ok a => k a
  | Raise e => Raise e
  end.

(** The old class lists its parameters; the new one tells the
    parameters that depend on others from those that stand alone. *)
Record old_doc : Type := { paramspecs : list string }.
Record new_doc : Type := { dependent : list string; standalone : list string }.

Fixpoint str_list (items : list value) : result (list string) :=
  match items with
  | [] => Ok []
  | VStr s :: rest => rbind (str_list rest) (λ l, Ok (s :: l))
  | _ :: _ => Raise (TypeError "expected a str")
  end.

Definition strs (v : value) : result (list string) :=
  match v with
  | VList items | VTuple items => str_list items
  | _ => Raise (TypeError "expected a list")
  end.

Definition old_to_dict (d : old_doc) : value :=
  VDict PlainDict
    [(VStr "version", VInt 0);
     (VStr "interdependencies",
       VDict PlainDict [(VStr "paramspecs", VList (VStr <$> paramspecs d))])].

Definition old_from_dict (dct : value) : result old_doc :=
  rbind (getitem dct "interdependencies") (λ idp,
  rbind (getitem idp "paramspecs") (λ ps,
  rbind (strs ps) (λ l, Ok {| paramspecs := l |}))).

Definition new_to_dict (d : new_doc) : value :=
  VDict PlainDict
    [(VStr "version", VInt 1);
     (VStr "interdependencies",
       VDict PlainDict
         [(VStr "dependent", VList (VStr <$> dependent d));
          (VStr "standalone", VList (VStr <$> standalone d))])].

Definition new_from_dict (dct : value) : result new_doc :=
  rbind (getitem dct "interdependencies") (λ idp,
  rbind (getitem idp "dependent") (λ ds,
  rbind (getitem idp "standalone") (λ ss,
  rbind (strs ds) (λ l1,
  rbind (strs ss) (λ l2, Ok {| dependent := l1; standalone := l2 |}))))).

Definition upgrade (d : old_doc) : new_doc :=
  {| dependent := []; standalone := paramspecs d |}.

(** Lossy: which parameters depended on others is dropped. *)
Definition downgrade (d : new_doc) : old_doc :=
  {| paramspecs := dependent d ++ standalone d |}.

#[export] Instance documents : Documents := {|
  v0_RunDescriber := old_doc;
  current_RunDescriber := new_doc;
  v0_from_dict := old_from_dict;
  v0_to_dict := old_to_dict;
  current_from_dict := new_from_dict;
  current_to_dict := new_to_dict;
  v0_to_v1 := upgrade;
  v1_to_v0 := downgrade;
|}.

Definition doc0 : old_doc := {| paramspecs := ["x"; "y"] |}.
Definition doc1 : new_doc := {| dependent := ["y"]; standalone := ["x"] |}.

(** A dict of a version no class has. *)
Definition dct999 : value :=
  VDict PlainDict
    [(VStr "version", VInt 999);
     (VStr "interdependencies", VDict PlainDict [(VStr "paramspecs", VList [])])].

(** The text of a value, in the flow style that both JSON and YAML
    read; [q] is put around strings. *)
Definition join (parts : list string) : string :=
  match parts with
  | [] => EmptyString
  | p :: rest => fold_left (λ acc x, acc +:+ ", " +:+ x) rest p
  end.

Fixpoint render (q : string) (v : value) : string :=
  match v with
  | VNone => "null"
  | VBool true => "true"
  | VBool false => "false"
  | VInt z => pretty z
  | VFloat _ => "NaN"
  | VStr s => q +:+ s +:+ q
  | VTuple items | VList items => "[" +:+ join (map (render q) items) +:+ "]"
  | VDict _ items =>
      "{" +:+ join (map (λ kv, render q kv.1 +:+ ": " +:+ render q kv.2) items) +:+ "}"
  end.

(** A value as the YAML parser builds it: every mapping is an ordered
    mapping. *)
Fixpoint ordered (v : value) : value :=
  match v with
  | VTuple items => VTuple (map ordered items)
  | VList items => VList (map ordered items)
  | VDict _ items => VDict OrderedMap (map (λ kv, (kv.1, ordered kv.2)) items)
  | _ => v
  end.

(** The mapping stored for [doc1], the downgrade of the document. *)
Definition stored : value := old_to_dict (downgrade doc1).

(** The documents the sample parsers know. *)
Definition known_dicts : list value :=
  [old_to_dict doc0; new_to_dict doc1; stored; dct999].

Definition parse (q : string) (text : string) : option value :=
  List.find (λ d, String.eqb (render q d) text) known_dicts.

Definition dquote : string := String (Ascii.ascii_of_nat 34) EmptyString.

#[export] Instance text_libraries : TextLibraries := {|
  json_dumps := λ d, Ok (render dquote d);
  json_loads := λ s, from_option Ok (Raise JSONDecodeError) (parse dquote s);
  yaml_dump := λ d, Ok (render EmptyString d);
  yaml_load := λ s, from_option (Ok ∘ ordered) (Raise YAMLError) (parse EmptyString s);
|}.

Definition obj0 : SomeRunDescriber := v0_obj (docs := documents) doc0.
Definition obj1 : SomeRunDescriber := current_obj (docs := documents) doc1.

(** A store with one object of each class. *)
Definition store : heap := <[1%positive := obj0]> (<[2%positive := obj1]> ∅).
End Sample.

(** A value that is neither a mapping nor iterable: [None], a bool or
    a number. *)
Definition not_iterable (v : value) : bool :=
  match v with
  | VNone | VBool _ | VInt _ | VFloat _ => true
  | _ => false
  end.

(** Text libraries that also read the empty YAML document, as [None],
    and the JSON text of the empty list. *)
Module SampleTexts.

Definition text_libraries : TextLibraries := {|
  json_dumps := json_dumps (TextLibraries := Sample.text_libraries);
  json_loads := λ s,
    if String.eqb s "[]" then Ok (VList [])
    else json_loads (TextLibraries := Sample.text_libraries) s;
  yaml_dump := yaml_dump (TextLibraries := Sample.text_libraries);
  yaml_load := λ s,
    match s with
    | EmptyString => Ok VNone
    | _ => yaml_load (TextLibraries := Sample.text_libraries) s
    end;
|}.
End SampleTexts.

(** ** An instance with a tuple in the stored mapping

    The old class writes its parameters as a tuple, the text libraries
    write a tuple as a sequence and read every sequence as a list, and
    the YAML library reads every mapping as an ordered mapping. *)
Module SampleTuple.

Definition old_to_dict (d : Sample.old_doc) : value :=
  VDict PlainDict
    [(VStr "version", VInt 0);
     (VStr "interdependencies",
       VDict PlainDict
         [(VStr "paramspecs", VTuple (VStr <$> Sample.paramspecs d))])].

#[export] Instance documents : Documents := {|
  v0_RunDescriber := Sample.old_doc;
  current_RunDescriber := Sample.new_doc;
  v0_from_dict := Sample.old_from_dict;
  v0_to_dict := old_to_dict;
  current_from_dict := Sample.new_from_dict;
  current_to_dict := Sample.new_to_dict;
  v0_to_v1 := Sample.upgrade;
  v1_to_v0 := Sample.downgrade;
|}.

(** The sequences of a value as the parsers build them: lists. *)
Fixpoint as_lists (v : value) : value :=
  match v with
  | VTuple items | VList items => VList (map as_lists items)
  | VDict cls items => VDict cls (map (λ kv, (kv.1, as_lists kv.2)) items)
  | _ => v
  end.

(** The mapping stored for [doc1]; its parameters are in a tuple. *)
Definition stored : value := old_to_dict (Sample.downgrade Sample.doc1).

Definition known_dicts : list value :=
  [old_to_dict Sample.doc0; Sample.new_to_dict Sample.doc1; stored].

Definition parse (q : string) (text : string) : option value :=
  List.find (λ d, String.eqb (Sample.render q d) text) known_dicts.

#[export] Instance text_libraries : TextLibraries := {|
  json_dumps := λ d, Ok (Sample.render Sample.dquote d);
  json_loads := λ s,
    from_option (Ok ∘ as_lists) (Raise JSONDecodeError) (parse Sample.dquote s);
  yaml_dump := λ d, Ok (Sample.render EmptyString d);
  yaml_load := λ s,
    from_option (Ok ∘ Sample.ordered ∘ as_lists) (Raise YAMLError)
      (parse EmptyString s);
|}.

Definition obj1 : SomeRunDescriber := current_obj (docs := documents) Sample.doc1.

(** A store with one object of each class. *)
Definition store : heap :=
  <[1%positive := v0_obj (docs := documents) Sample.doc0]>
    (<[2%positive := obj1]> ∅).
End SampleTuple.

(** * KeysightB1517A.py

    The source/monitor unit of the B1500.  The class keeps three
    configuration dicts and sends commands to the mainframe. *)
Module KeysightB1517A.

(** What a method raises: [Exception(msg)] itself, or an exception of
    a built-in class. *)
Inductive error : Type :=
| Exception (msg : string)
| Builtin (e : exn).

Inductive outcome (A : Type) : Type :=
| Returns (a : A)
| Raises (e : error).
Arguments Returns {A} a.
Arguments Raises {A} e.

(** [constants.OutputRange = Union[VOutputRange, IOutputRange]] *)
Inductive OutputRange (V I : Type) : Type :=
| VRange (r : V)
| IRange (r : I).
Arguments VRange {V I} r.
Arguments IRange {V I} r.

(** [isinstance(a, type(b))] for two output ranges. *)
Definition same_kind {V I} (a b : OutputRange V I) : bool :=
  match a, b with
  | VRange _, VRange _ | IRange _, IRange _ => true
  | _, _ => false
  end.

(** [Union[float, int]] *)
Inductive numeric : Type :=
| NInt (z : Z)
| NFloat (f : float).

(** What goes to the mainframe: [write(cmd)] and [ask(cmd)]. *)
Inductive event : Type :=
| Write (cmd : string)
| Ask (cmd : string).

(** The parts of the package the class uses: the enumerations of
    [constants], the commands of [MessageBuilder] (each stands for
    [MessageBuilder().cmd(...).message]), [validate] of a [vals.Numbers]
    validator with its two bounds, the parser of a spot measurement
    (the ["value"] entry of what it returns), the instrument that
    answers [ask] after the commands sent so far, and the float
    arithmetic of the host: [float(x * n)] and [np.arange]. *)
Class Collaborators : Type := {
  ChNr : Type;
  VOutputRange : Type;
  IOutputRange : Type;
  VOutputRange_AUTO : VOutputRange;
  IOutputRange_AUTO : IOutputRange;
  CompliancePolarityMode : Type;
  MeasureRange : Type;
  MM_Mode : Type;
  MM_Mode_SPOT : MM_Mode;
  AAD_Type : Type;
  AAD_Type_HIGH_SPEED : AAD_Type;
  AAD_Type_HIGH_RESOLUTION : AAD_Type;
  dv : ChNr → VOutputRange → float → option numeric →
       option CompliancePolarityMode →
       option (OutputRange VOutputRange IOutputRange) → outcome string;
  di : ChNr → IOutputRange → float → option numeric →
       option CompliancePolarityMode →
       option (OutputRange VOutputRange IOutputRange) → outcome string;
  ti : ChNr → option MeasureRange → outcome string;
  tv : ChNr → option MeasureRange → outcome string;
  mm : MM_Mode → list ChNr → outcome string;
  mt : float → float → Z → option float → outcome string;
  aad : ChNr → AAD_Type → outcome string;
  Numbers_validate : float → float → float → outcome unit;
  parse_spot_measurement_response_value : string → outcome float;
  instrument_answer : list event → string → outcome string;
  float_of_product : float → Z → outcome float;
  np_arange : float → float → option float → outcome (list float);
}.

Section Driver.
Context {ins : Collaborators}.

(** [self._source_config]: a dict with these four keys, all of them
    always present. *)
Record SourceConfig : Type := {
  output_range : option (OutputRange VOutputRange IOutputRange);
  compliance : option numeric;
  compl_polarity : option CompliancePolarityMode;
  min_compliance_range : option (OutputRange VOutputRange IOutputRange);
}.

(** [self._timing_parameters] *)
Record TimingParameters : Type := {
  h_bias : option float;
  interval : option float;
  number : option Z;
  h_base : option float;
}.

(** The object: [channels] is the one-element tuple [(ChNr(slot_nr),)],
    [_measure_config] the dict with the key [measure_range],
    [measurement_mode_cache] the cache of the parameter
    [measurement_mode], and [io] what was sent to the mainframe, oldest
    first. *)
Record B1517A : Type := {
  channels : ChNr;
  _measure_config : option MeasureRange;
  _source_config : SourceConfig;
  _timing_parameters : TimingParameters;
  measurement_mode_cache : MM_Mode;
  io : list event;
}.

Definition with_source_config (c : SourceConfig) (self : B1517A) : B1517A :=
  {| channels := channels self; _measure_config := _measure_config self;
     _source_config := c; _timing_parameters := _timing_parameters self;
     measurement_mode_cache := measurement_mode_cache self; io := io self |}.

Definition with_measure_config (r : option MeasureRange) (self : B1517A) : B1517A :=
  {| channels := channels self; _measure_config := r;
     _source_config := _source_config self;
     _timing_parameters := _timing_parameters self;
     measurement_mode_cache := measurement_mode_cache self; io := io self |}.

Definition with_timing_parameters (t : TimingParameters) (self : B1517A) : B1517A :=
  {| channels := channels self; _measure_config := _measure_config self;
     _source_config := _source_config self; _timing_parameters := t;
     measurement_mode_cache := measurement_mode_cache self; io := io self |}.

Definition with_event (e : event) (self : B1517A) : B1517A :=
  {| channels := channels self; _measure_config := _measure_config self;
     _source_config := _source_config self;
     _timing_parameters := _timing_parameters self;
     measurement_mode_cache := measurement_mode_cache self;
     io := io self ++ [e] |}.

(** [self._source_config["output_range"] = r] *)
Definition with_output_range (r : OutputRange VOutputRange IOutputRange)
    (c : SourceConfig) : SourceConfig :=
  {| output_range := Some r; compliance := compliance c;
     compl_polarity := compl_polarity c;
     min_compliance_range := min_compliance_range c |}.

(** A method: from the object before the call to what the call returns
    or raises and the object after it. *)
Definition D (A : Type) : Type := B1517A → outcome A * B1517A.

#[global] Instance D_ret : MRet D := λ A a self, (Returns a, self).
#[global] Instance D_bind : MBind D := λ A B k m self,
  match m self with
  | (Returns a, self') => k a self'
  | (Raises e, self') => (Raises e, self')
  end.

Definition get : D B1517A := λ self, (Returns self, self).
Definition modify (f : B1517A → B1517A) : D unit := λ self, (Returns tt, f self).
Definition raise {A} (e : error) : D A := λ self, (Raises e, self).
Definition lift {A} (r : outcome A) : D A := λ self, (r, self).

(** [self.write(cmd)] *)
Definition write (cmd : string) : D unit := modify (with_event (Write cmd)).

(** [self.ask(cmd)] *)
Definition ask (cmd : string) : D string :=
  self ← get;
  _ ← modify (with_event (Ask cmd));
  lift (instrument_answer (io self) cmd).

(** The configuration part of [__init__]: [chnum] is [ChNr(slot_nr)]. *)
Definition __init__ (chnum : ChNr) : B1517A :=
  {| channels := chnum;
     _measure_config := None;
     _source_config :=
       {| output_range := None; compliance := None; compl_polarity := None;
          min_compliance_range := None |};
     _timing_parameters :=
       {| h_bias := None; interval := None; number := None; h_base := None |};
     measurement_mode_cache := MM_Mode_SPOT;
     io := [] |}.

(** [_interval_validator = vals.Numbers(0.0001, 65.535)] *)
#[warnings="-inexact-float"]
Definition _interval_validator_validate (x : float) : outcome unit :=
  Numbers_validate 0.0001%float 65.535%float x.

Definition _get_number_of_samples : D Z :=
  self ← get;
  match number (_timing_parameters self) with
  | Some sample_number => mret sample_number
  | None => raise (Exception "set timing parameters first")
  end.

Definition _total_measurement_time : D float :=
  self ← get;
  match interval (_timing_parameters self), number (_timing_parameters self) with
  | Some sample_rate, Some sample_number =>
      lift (float_of_product sample_rate sample_number)
  | _, _ => raise (Exception "set timing parameters first")
  end.

Definition _get_time_axis : D (list float) :=
  self ← get;
  let sample_rate := interval (_timing_parameters self) in
  total_time ← _total_measurement_time;
  lift (np_arange 0%float total_time sample_rate).

Definition _set_voltage (value : float) : D unit :=
  self ← get;
  _ ← match output_range (_source_config self) with
      | None =>
          modify (with_source_config
                    (with_output_range (VRange VOutputRange_AUTO) (_source_config self)))
      | Some _ => mret tt
      end;
  self ← get;
  match output_range (_source_config self) with
  | Some (VRange v_range) =>
      msg ← lift (dv (channels self) v_range value
                     (compliance (_source_config self))
                     (compl_polarity (_source_config self))
                     (min_compliance_range (_source_config self)));
      write msg
  | _ =>
      raise (Builtin (TypeError
        "Asking to force voltage, but source_config contains a current output range"))
  end.

Definition _set_current (value : float) : D unit :=
  self ← get;
  _ ← match output_range (_source_config self) with
      | None =>
          modify (with_source_config
                    (with_output_range (IRange IOutputRange_AUTO) (_source_config self)))
      | Some _ => mret tt
      end;
  self ← get;
  match output_range (_source_config self) with
  | Some (IRange i_range) =>
      msg ← lift (di (channels self) i_range value
                     (compliance (_source_config self))
                     (compl_polarity (_source_config self))
                     (min_compliance_range (_source_config self)));
      write msg
  | _ =>
      raise (Builtin (TypeError
        "Asking to force current, but source_config contains a voltage output range"))
  end.

Definition _get_current : D float :=
  self ← get;
  msg ← lift (ti (channels self) (_measure_config self));
  response ← ask msg;
  lift (parse_spot_measurement_response_value response).

Definition _get_voltage : D float :=
  self ← get;
  msg ← lift (tv (channels self) (_measure_config self));
  response ← ask msg;
  lift (parse_spot_measurement_response_value response).

Definition _set_measurement_mode (mode : MM_Mode) : D unit :=
  self ← get;
  msg ← lift (mm mode [channels self]);
  write msg.

Definition source_config (output_range : OutputRange VOutputRange IOutputRange)
    (compliance : option numeric)
    (compl_polarity : option CompliancePolarityMode)
    (min_compliance_range : option (OutputRange VOutputRange IOutputRange))
  : D unit :=
  _ ← match min_compliance_range with
      | Some r =>
          if same_kind r output_range then
            raise (Builtin (TypeError
              "When forcing voltage, min_compliance_range must be an current output range (and vice versa)."))
          else mret tt
      | None => mret tt
      end;
  modify (with_source_config
            {| output_range := Some output_range;
               compliance := compliance;
               compl_polarity := compl_polarity;
               min_compliance_range := min_compliance_range |}).

Definition measure_config (measure_range : MeasureRange) : D unit :=
  modify (with_measure_config (Some measure_range)).

Definition timing_parameters (h_bias interval : float) (number : Z)
    (h_base : option float) : D unit :=
  _ ← lift (_interval_validator_validate interval);
  _ ← modify (with_timing_parameters
                {| h_bias := Some h_bias; interval := Some interval;
                   number := Some number; h_base := h_base |});
  msg ← lift (mt h_bias interval number h_base);
  write msg.

Definition use_high_speed_adc : D unit :=
  self ← get;
  msg ← lift (aad (channels self) AAD_Type_HIGH_SPEED);
  write msg.

Definition use_high_resolution_adc : D unit :=
  self ← get;
  msg ← lift (aad (channels self) AAD_Type_HIGH_RESOLUTION);
  write msg.

(** *** Sequences of calls

    The functions a user reaches: those behind the parameters
    [voltage], [current], [measurement_mode] and [time_axis] (their
    [set_cmd] and [get_cmd]) and the public methods.  A call that
    raises leaves the object as it was when the exception was raised,
    and the user goes on. *)
Inductive call : Type :=
| Voltage_set (value : float)
| Current_set (value : float)
| Voltage_get
| Current_get
| Measurement_mode_set (mode : MM_Mode)
| Time_axis_get
| Source_config (output_range : OutputRange VOutputRange IOutputRange)
    (compliance : option numeric)
    (compl_polarity : option CompliancePolarityMode)
    (min_compliance_range : option (OutputRange VOutputRange IOutputRange))
| Measure_config (measure_range : MeasureRange)
| Timing_parameters (h_bias interval : float) (number : Z) (h_base : option float)
| Use_high_speed_adc
| Use_high_resolution_adc.

(** The object after a call. *)
Definition after_call (c : call) (self : B1517A) : B1517A :=
  match c with
  | Voltage_set v => (_set_voltage v self).2
  | Current_set v => (_set_current v self).2
  | Voltage_get => (_get_voltage self).2
  | Current_get => (_get_current self).2
  | Measurement_mode_set m => (_set_measurement_mode m self).2
  | Time_axis_get => (_get_time_axis self).2
  | Source_config o c p m => (source_config o c p m self).2
  | Measure_config r => (measure_config r self).2
  | Timing_parameters hb i n hbase => (timing_parameters hb i n hbase self).2
  | Use_high_speed_adc => (use_high_speed_adc self).2
  | Use_high_resolution_adc => (use_high_resolution_adc self).2
  end.

(** The object after a sequence of calls, first call first. *)
Definition after_calls (calls : list call) (self : B1517A) : B1517A :=
  foldl (λ s c, after_call c s) self calls.

(** The compliance range of a source configuration, when there is
    one, is a range of the other kind than the output range; without
    an output range nothing else is configured. *)
Definition source_consistent (c : SourceConfig) : Prop :=
  match output_range c with
  | None =>
      compliance c = None ∧ compl_polarity c = None ∧ min_compliance_range c = None
  | Some o => ∀ m, min_compliance_range c = Some m → same_kind m o = false
  end.

(** The timing parameters are either all unset or set together, with
    an interval that the validator accepts. *)
Definition timing_consistent (t : TimingParameters) : Prop :=
  match h_bias t, interval t, number t with
  | None, None, None => h_base t = None
  | Some _, Some i, Some _ => _interval_validator_validate i = Returns tt
  | _, _, _ => False
  end.

(** What holds of the object throughout its life. *)
Definition consistent (chnum : ChNr) (self : B1517A) : Prop :=
  channels self = chnum
  ∧ source_consistent (_source_config self)
  ∧ timing_consistent (_timing_parameters self).
End Driver.

(** The three exceptions the class raises itself. *)
Definition voltage_error : error :=
  Builtin (TypeError
    "Asking to force voltage, but source_config contains a current output range").

Definition current_error : error :=
  Builtin (TypeError
    "Asking to force current, but source_config contains a voltage output range").

Definition unset_error : error := Exception "set timing parameters first".

(** The events of [l2] are those of [l1] followed by at most one
    more. *)
Definition at_most_one_more (l1 l2 : list event) : Prop :=
  l2 = l1 ∨ ∃ e, l2 = l1 ++ [e].

(** ** A small instrument

    Integer enumerations, commands that name their channel and range,
    a validator that compares with the two bounds, and an instrument
    that answers every query with the same reading. *)
Module Bench.

Definition command (name : string) (args : list Z) : outcome string :=
  Returns (name +:+ " " +:+ Sample.join (pretty <$> args)).

Definition range_code (r : option (OutputRange Z Z)) : Z :=
  match r with
  | Some (VRange v) => v
  | Some (IRange i) => i
  | None => 0
  end.

Fixpoint arange (fuel : nat) (x stop step : float) : list float :=
  match fuel with
  | O => []
  | S fuel' => if PrimFloat.ltb x stop then x :: arange fuel' (x + step) stop step else []
  end.

#[export] Instance collaborators : Collaborators := {|
  ChNr := Z;
  VOutputRange := Z;
  IOutputRange := Z;
  VOutputRange_AUTO := 0;
  IOutputRange_AUTO := 0;
  CompliancePolarityMode := bool;
  MeasureRange := Z;
  MM_Mode := Z;
  MM_Mode_SPOT := 1;
  AAD_Type := Z;
  AAD_Type_HIGH_SPEED := 0;
  AAD_Type_HIGH_RESOLUTION := 1;
  dv := λ ch r _ _ _ m, command "DV" [ch; r; range_code m];
  di := λ ch r _ _ _ m, command "DI" [ch; r; range_code m];
  ti := λ ch r, command "TI" [ch; default 0 r];
  tv := λ ch r, command "TV" [ch; default 0 r];
  mm := λ mode chs, command "MM" (mode :: chs);
  mt := λ _ _ n _, command "MT" [n];
  aad := λ ch t, command "AAD" [ch; t];
  Numbers_validate := λ lo hi x,
    if PrimFloat.leb lo x && PrimFloat.leb x hi then Returns tt
    else Raises (Builtin (ValueError "value is outside the bounds"));
  parse_spot_measurement_response_value := λ _, Returns 0.5%float;
  instrument_answer := λ _ _, Returns "NAI+5.00000E-01";
  float_of_product := λ x n, Returns (x * PrimFloat.of_uint63 (Uint63.of_Z n))%float;
  np_arange := λ start stop step,
    Returns (arange 1000 start stop (default 1%float step));
|}.

(** The module in slot 1, as [__init__] leaves it. *)
Definition smu : B1517A := __init__ 1.

(** The same instrument with a message builder that refuses the
    commands [DV], [DI] and [MT]. *)
Definition refusing : Collaborators := {|
  ChNr := Z;
  VOutputRange := Z;
  IOutputRange := Z;
  VOutputRange_AUTO := 0;
  IOutputRange_AUTO := 0;
  CompliancePolarityMode := bool;
  MeasureRange := Z;
  MM_Mode := Z;
  MM_Mode_SPOT := 1;
  AAD_Type := Z;
  AAD_Type_HIGH_SPEED := 0;
  AAD_Type_HIGH_RESOLUTION := 1;
  dv := λ _ _ _ _ _ _, Raises (Builtin (ValueError "refused"));
  di := λ _ _ _ _ _ _, Raises (Builtin (ValueError "refused"));
  ti := ti (Collaborators := collaborators);
  tv := tv (Collaborators := collaborators);
  mm := mm (Collaborators := collaborators);
  mt := λ _ _ _ _, Raises (Builtin (ValueError "refused"));
  aad := aad (Collaborators := collaborators);
  Numbers_validate := Numbers_validate (Collaborators := collaborators);
  parse_spot_measurement_response_value :=
    parse_spot_measurement_response_value (Collaborators := collaborators);
  instrument_answer := instrument_answer (Collaborators := collaborators);
  float_of_product := float_of_product (Collaborators := collaborators);
  np_arange := np_arange (Collaborators := collaborators);
|}.
End Bench.
End KeysightB1517A.

(** A version the build knows: one that [from_dict_to_native] dispatches
    on and that keys [_converters]. *)
Definition known_version (v : Z) : Prop := v = 0 ∨ v = 1.

(** The contents of the document that the converter registered for
    [(version o, target)] makes of [o]. *)
Definition converted {docs : Documents} (o : SomeRunDescriber) (target : Z)
  : SomeRunDescriber :=
  match o with
  | v0_obj d => if decide (target = 1) then current_obj (v0_to_v1 d) else o
  | current_obj d => if decide (target = 0) then v0_obj (v1_to_v0 d) else o
  end.

(** Modelled from the spec: the classes are not in this file.  A valid
    document is one whose mapping holds, under [version], the version
    tag of its own class, and from whose mapping the constructor of its
    class builds a document equal to it in all fields. *)
Definition valid_document {docs : Documents} (o : SomeRunDescriber) : Prop :=
  getitem (to_dict o) "version" = Ok (VInt (version o))
  ∧ match o with
    | v0_obj d => v0_from_dict (v0_to_dict d) = Ok d
    | current_obj d => current_from_dict (current_to_dict d) = Ok d
    end.


(** Modelled from the spec: the text libraries are not part of the
    package.  The mapping [dct] round-trips through a text codec when
    the codec writes it and reads the text back as a mapping with the
    same entries, up to the class of the mappings in it. *)
Definition roundtrips (dumps : value → result string) (loads : string → result value)
    (dct : value) : Prop :=
  ∃ text loaded, dumps dct = Ok text ∧ loads text = Ok loaded ∧ plain loaded = plain dct.

(** What a text codec keeps of a value: a tuple is written as a
    sequence and read back as a list, and a mapping is read back as a
    mapping of the parser's class.  Two values with the same [wire] have
    the same keys and entries up to these two differences. *)
Fixpoint wire (v : value) : value :=
  match v with
  | VTuple items | VList items => VList (map wire items)
  | VDict _ items => VDict PlainDict (map (λ kv, (kv.1, wire kv.2)) items)
  | _ => v
  end.

(** The v0 constructor reads the entries of a mapping and iterates
    over its sequences: from any mapping with the keys and entries of
    [dct], where a tuple may be a list and a mapping may be of either
    class, it builds what it builds from [dct]. *)
Definition v0_reads_as {docs : Documents} (dct : value) : Prop :=
  ∀ d, wire d = wire dct → v0_from_dict d = v0_from_dict dct.

(** Modelled from the spec: the text libraries are not part of the
    package.  The mapping [dct] round-trips through a text codec when
    the codec writes it and reads the text back as a mapping with the
    same keys and entries, where a tuple comes back as a list and a
    mapping as a mapping of the parser's class. *)
Definition text_roundtrips (dumps : value → result string)
    (loads : string → result value) (dct : value) : Prop :=
  ∃ text loaded, dumps dct = Ok text ∧ loads text = Ok loaded ∧ wire loaded = wire dct.

(** A value that holds, at any depth, a mapping of the parser's
    class. *)
Fixpoint has_ordered (v : value) : bool :=
  match v with
  | VTuple items | VList items => existsb has_ordered items
  | VDict cls items =>
      match cls with OrderedMap => true | PlainDict => false end
      || existsb (λ kv, has_ordered kv.1 || has_ordered kv.2) items
  | _ => false
  end.

(** * Properties *)

(** Unfolds the operations of the store monad. *)
Ltac munfold :=
  unfold mbind, mret, M_bind, M_ret, bind, ret, raise, lift in *.

Section Properties.
Context {docs : Documents}.

(** ** The store *)

Lemma deref_Some (h : heap) (l : loc) (o : SomeRunDescriber) :
  h !! l = Some o → deref l h = (Ok o, h).
Proof. intros Hl. unfold deref. by rewrite Hl. Qed.

Lemma fresh_unused (h : heap) : h !! fresh (dom h) = None.
Proof. apply not_elem_of_dom, is_fresh. Qed.

Lemma alloc_lookup (h : heap) (o : SomeRunDescriber) :
  ∃ l, alloc o h = (Ok l, <[l := o]> h) ∧ h !! l = None.
Proof. exists (fresh (dom h)). split; [done | apply fresh_unused]. Qed.

Lemma get_version_Some (h : heap) (l : loc) (o : SomeRunDescriber) :
  h !! l = Some o → get_version l h = (Ok (version o), h).
Proof. intros Hl. unfold get_version. munfold. by rewrite (deref_Some _ _ _ Hl). Qed.

Lemma _to_dict_Some (h : heap) (l : loc) (o : SomeRunDescriber) :
  h !! l = Some o → _to_dict l h = (Ok (to_dict o), h).
Proof. intros Hl. unfold _to_dict. munfold. by rewrite (deref_Some _ _ _ Hl). Qed.

Lemma version_known (o : SomeRunDescriber) : known_version (version o).
Proof. destruct o; [by left | by right]. Qed.

(** ** Comparison with an integer *)

Lemma float_eq_Z_inj (f : float) (a b : Z) :
  float_eq_Z f a = true → float_eq_Z f b = true → a = b.
Proof.
  unfold float_eq_Z. destruct (Prim2SF f) as [s| | |s m e]; try done.
  - intros ?%Z.eqb_eq ?%Z.eqb_eq. congruence.
  - destruct (0 <=? e) eqn:He; intros Ha%Z.eqb_eq Hb%Z.eqb_eq; [congruence | ].
    apply Z.leb_gt in He.
    assert (0 < 2 ^ (- e)) by (apply Z.pow_pos_nonneg; lia).
    apply (Z.mul_reg_r _ _ (2 ^ (- e))); [lia | congruence].
Qed.

Lemma py_eq_int_inj (v : value) (a b : Z) :
  py_eq_int v a = true → py_eq_int v b = true → a = b.
Proof.
  destruct v; simpl; try done.
  - intros ?%Z.eqb_eq ?%Z.eqb_eq. congruence.
  - intros ?%Z.eqb_eq ?%Z.eqb_eq. congruence.
  - apply float_eq_Z_inj.
Qed.

Lemma py_eq_int_1_not_0 (v : value) : py_eq_int v 1 = true → py_eq_int v 0 = false.
Proof.
  intros H1. destruct (py_eq_int v 0) eqn:H0; [ | done].
  by pose proof (py_eq_int_inj _ _ _ H0 H1).
Qed.

(** ** The converter table *)

Lemma converters_lookup (key : Z * Z) :
  _converters !! key =
    if decide (key = (0, 0)) then Some (λ x : loc, mret x)
    else if decide (key = (0, 1)) then Some call_v0_to_v1
    else if decide (key = (1, 0)) then Some call_v1_to_v0
    else if decide (key = (1, 1)) then Some (λ x : loc, mret x)
    else None.
Proof.
  unfold _converters.
  repeat (rewrite lookup_insert; case_decide; [by subst | ]).
  repeat (case_decide; [congruence | ]).
  apply lookup_empty.
Qed.

Lemma converters_registered (a b : Z) :
  is_Some (_converters !! (a, b)) ↔ known_version a ∧ known_version b.
Proof.
  rewrite converters_lookup. unfold known_version.
  repeat case_decide; simplify_eq; split;
    try (intros _; first [by eauto | lia]);
    try (intros [? ?]%is_Some_None || (intros [[|] [|]]; simplify_eq)); done.
Qed.

Lemma converters_getitem_Some (key : Z * Z) (f : loc → M loc) (h : heap) :
  _converters !! key = Some f → converters_getitem key h = (Ok f, h).
Proof. intros Hk. unfold converters_getitem. by rewrite Hk. Qed.

Lemma converters_getitem_None (key : Z * Z) (h : heap) :
  _converters !! key = None →
  converters_getitem key h = (Raise (UnsupportedConversionError key), h).
Proof. intros Hk. unfold converters_getitem. by rewrite Hk. Qed.

(** ** Dispatch on the version entry *)

Example py_eq_int_float : py_eq_int (VFloat 1%float) 1 = true.
Proof. reflexivity. Qed.

Example py_eq_int_bool : py_eq_int (VBool false) 0 = true.
Proof. reflexivity. Qed.

Lemma from_dict_to_native_v0 (dct x : value) (h : heap) :
  getitem dct "version" = Ok x → py_eq_int x 0 = true →
  from_dict_to_native dct h = v0_RunDescriber_from_dict dct h.
Proof.
  intros Hget H0. unfold from_dict_to_native. munfold. by rewrite Hget, H0.
Qed.

Lemma from_dict_to_native_current (dct x : value) (h : heap) :
  getitem dct "version" = Ok x → py_eq_int x 1 = true →
  from_dict_to_native dct h = current_RunDescriber_from_dict dct h.
Proof.
  intros Hget H1. unfold from_dict_to_native. munfold.
  by rewrite Hget, (py_eq_int_1_not_0 _ H1), H1.
Qed.

Lemma from_dict_to_native_unknown (dct x : value) (h : heap) :
  getitem dct "version" = Ok x → py_eq_int x 0 = false → py_eq_int x 1 = false →
  from_dict_to_native dct h = (Raise (UnknownVersionError dct), h).
Proof.
  intros Hget H0 H1. unfold from_dict_to_native. munfold. by rewrite Hget, H0, H1.
Qed.

(** An exception of [from_dict_to_native] leaves [from_dict_to_current]
    as it is. *)
Lemma from_dict_to_current_raise (dct : value) (e : exn) (h h' : heap) :
  from_dict_to_native dct h = (Raise e, h') →
  from_dict_to_current dct h = (Raise e, h').
Proof. intros Hn. unfold from_dict_to_current. munfold. by rewrite Hn. Qed.

Section Text.
Context {libs : TextLibraries}.

Lemma from_json_to_native_loads (json_str : string) (dct : value) (h : heap) :
  json_loads json_str = Ok dct →
  from_json_to_native json_str h = from_dict_to_native dct h.
Proof. intros Hl. unfold from_json_to_native. munfold. by rewrite Hl. Qed.

Lemma from_json_to_current_loads (json_str : string) (dct : value) (h : heap) :
  json_loads json_str = Ok dct →
  from_json_to_current json_str h = from_dict_to_current dct h.
Proof. intros Hl. unfold from_json_to_current. munfold. by rewrite Hl. Qed.

Lemma from_yaml_to_current_loads (yaml_str : string) (loaded ser : value) (h : heap) :
  yaml_load yaml_str = Ok loaded → py_dict loaded = Ok ser →
  from_yaml_to_current yaml_str h = from_dict_to_current ser h.
Proof. intros Hl Hd. unfold from_yaml_to_current. munfold. by rewrite Hl, Hd. Qed.

(** C1: a mapping whose [version] entry equals neither 0 nor 1 makes
    [from_dict_to_native] raise the unknown-version error, whatever its
    other entries are, and the error reaches the caller through every
    function of the module that deserializes: [from_dict_to_current],
    [from_json_to_native], [from_json_to_current] and
    [from_yaml_to_current]. *)
Theorem unknown_version_raises (dct x : value) (h : heap) :
  getitem dct "version" = Ok x →
  py_eq_int x 0 = false → py_eq_int x 1 = false →
  from_dict_to_native dct h = (Raise (UnknownVersionError dct), h)
  ∧ from_dict_to_current dct h = (Raise (UnknownVersionError dct), h)
  ∧ (∀ json_str, json_loads json_str = Ok dct →
       from_json_to_native json_str h = (Raise (UnknownVersionError dct), h)
       ∧ from_json_to_current json_str h = (Raise (UnknownVersionError dct), h))
  ∧ (∀ yaml_str loaded, yaml_load yaml_str = Ok loaded → py_dict loaded = Ok dct →
       from_yaml_to_current yaml_str h = (Raise (UnknownVersionError dct), h)).
Proof.
  intros Hget H0 H1.
  pose proof (from_dict_to_native_unknown _ _ h Hget H0 H1) as Hn.
  pose proof (from_dict_to_current_raise _ _ _ _ Hn) as Hc.
  repeat split; try done.
  - by rewrite (from_json_to_native_loads _ dct).
  - by rewrite (from_json_to_current_loads _ dct).
  - intros yaml_str loaded Hl Hd. by rewrite (from_yaml_to_current_loads _ loaded dct).
Qed.
End Text.

(** C10: [from_dict_to_native] looks at the [version] entry only.  A
    mapping whose entry equals 0 is handed, as it is, to
    [v0.RunDescriber._from_dict], and one whose entry equals 1 to
    [current.RunDescriber._from_dict]; the result, returned or raised,
    is that of the constructor. *)
Theorem from_dict_to_native_dispatch (dct x : value) (h : heap) :
  getitem dct "version" = Ok x →
  (py_eq_int x 0 = true →
     from_dict_to_native dct h = v0_RunDescriber_from_dict dct h)
  ∧ (py_eq_int x 1 = true →
     from_dict_to_native dct h = current_RunDescriber_from_dict dct h).
Proof.
  intros Hget. split; intros Hv.
  - by apply (from_dict_to_native_v0 _ x).
  - by apply (from_dict_to_native_current _ x).
Qed.

(** ** Identity entries *)

(** C5: for each known version [v] the table has an entry for [(v, v)],
    and the function stored there returns the reference it is given,
    the same location, and leaves the store as it is: no object is
    made. *)
Theorem identity_converter_same_instance (v : Z) :
  known_version v →
  ∃ f, _converters !! (v, v) = Some f
       ∧ ∀ (d : loc) (h : heap), f d h = (Ok d, h).
Proof.
  intros [-> | ->]; rewrite converters_lookup; simpl;
    (eexists; split; [reflexivity | done]).
Qed.

(** ** Storage version *)

(** C6: [to_dict_for_storage] is [to_dict_as_version] at the storage
    version, which is 0 and is behind the current version, 1. *)
Theorem to_dict_for_storage_as_version (desc : loc) (h : heap) :
  to_dict_for_storage desc h = to_dict_as_version desc STORAGE_VERSION h
  ∧ STORAGE_VERSION = 0 ∧ CURRENT_VERSION = 1
  ∧ STORAGE_VERSION < CURRENT_VERSION.
Proof. repeat split. Qed.

(** ** Calls of the registered converters *)

(** A registered converter, called on a document of the version its key
    starts with, returns a document of the version its key ends with;
    the objects of the store stay as they were. *)
Lemma converter_call (h : heap) (desc : loc) (o : SomeRunDescriber) (target : Z)
    (f : loc → M loc) :
  h !! desc = Some o → _converters !! (version o, target) = Some f →
  ∃ r h', f desc h = (Ok r, h') ∧ h' !! r = Some (converted o target)
          ∧ version (converted o target) = target ∧ h ⊆ h'.
Proof.
  intros Hd Hf. rewrite converters_lookup in Hf.
  destruct o as [d|d]; simpl in *; repeat case_decide; simplify_eq.
  - by exists desc, h.
  - destruct (alloc_lookup h (current_obj (v0_to_v1 d))) as (l & Ha & Hl).
    exists l, (<[l := current_obj (v0_to_v1 d)]> h).
    unfold call_v0_to_v1. munfold. rewrite (deref_Some _ _ _ Hd), Ha.
    rewrite lookup_insert_eq. repeat split; try done. by apply insert_subseteq.
  - destruct (alloc_lookup h (v0_obj (v1_to_v0 d))) as (l & Ha & Hl).
    exists l, (<[l := v0_obj (v1_to_v0 d)]> h).
    unfold call_v1_to_v0. munfold. rewrite (deref_Some _ _ _ Hd), Ha.
    rewrite lookup_insert_eq. repeat split; try done. by apply insert_subseteq.
  - by exists desc, h.
Qed.

Lemma to_dict_as_version_known (h : heap) (desc : loc) (o : SomeRunDescriber)
    (target : Z) :
  h !! desc = Some o → known_version target →
  ∃ h', to_dict_as_version desc target h = (Ok (to_dict (converted o target)), h')
        ∧ h ⊆ h'.
Proof.
  intros Hd Ht.
  destruct (proj2 (converters_registered (version o) target)) as [f Hf];
    [split; [apply version_known | done] | ].
  destruct (converter_call _ _ _ _ _ Hd Hf) as (r & h' & Hcall & Hr & _ & Hsub).
  exists h'. split; [ | done].
  unfold to_dict_as_version. munfold.
  rewrite (get_version_Some _ _ _ Hd), (converters_getitem_Some _ _ _ Hf), Hcall.
  apply (_to_dict_Some _ _ _ Hr).
Qed.

Lemma to_dict_as_version_unregistered (h : heap) (desc : loc) (o : SomeRunDescriber)
    (target : Z) :
  h !! desc = Some o → _converters !! (version o, target) = None →
  to_dict_as_version desc target h
  = (Raise (UnsupportedConversionError (version o, target)), h).
Proof.
  intros Hd Hn. unfold to_dict_as_version. munfold.
  by rewrite (get_version_Some _ _ _ Hd), (converters_getitem_None _ _ Hn).
Qed.

(** C2: the table has an entry for every pair of known versions, so
    [to_dict_as_version] finds its converter and returns a dict for
    every document and every known target version; for a pair that is
    not registered the lookup raises the [KeyError] of the table, the
    unsupported-conversion error, and nothing is returned. *)
Theorem to_dict_as_version_lookup (h : heap) (desc : loc) (o : SomeRunDescriber)
    (target : Z) :
  h !! desc = Some o →
  (∀ a b, known_version a → known_version b → is_Some (_converters !! (a, b)))
  ∧ (known_version target →
       ∃ d h', to_dict_as_version desc target h = (Ok d, h'))
  ∧ (_converters !! (version o, target) = None →
       to_dict_as_version desc target h
       = (Raise (UnsupportedConversionError (version o, target)), h)).
Proof.
  intros Hd. split; [ | split].
  - intros a b Ha Hb. by apply converters_registered.
  - intros Ht. destruct (to_dict_as_version_known _ _ _ _ Hd Ht) as (h' & Hr & _).
    eauto.
  - by apply to_dict_as_version_unregistered.
Qed.

(** C9: whenever the table has a converter from [a] to [b] it has one
    from [b] to [a]; so a document of either class is written at the
    storage version, as the dict of its conversion to that version. *)
Theorem converter_coverage_symmetric (a b : Z) (h : heap) (desc : loc)
    (o : SomeRunDescriber) :
  is_Some (_converters !! (a, b)) → h !! desc = Some o →
  is_Some (_converters !! (b, a))
  ∧ ∃ h', to_dict_for_storage desc h
          = (Ok (to_dict (converted o STORAGE_VERSION)), h').
Proof.
  intros Hab Hd. split.
  - apply converters_registered. apply converters_registered in Hab. tauto.
  - destruct (to_dict_as_version_known h desc o STORAGE_VERSION Hd) as (h' & Hr & _);
      [by left | ].
    by exists h'.
Qed.

(** ** Deserialization to the native and to the current version *)

(** What a successful [from_dict_to_native] has done: the [version]
    entry equals the version of the new object, which the constructor
    of its class built from the mapping. *)
Lemma from_dict_to_native_Ok (dct : value) (h h1 : heap) (desc : loc) :
  from_dict_to_native dct h = (Ok desc, h1) →
  ∃ x o, getitem dct "version" = Ok x ∧ py_eq_int x (version o) = true
         ∧ match o with
           | v0_obj d => v0_from_dict dct = Ok d
           | current_obj d => current_from_dict dct = Ok d
           end
         ∧ h !! desc = None ∧ h1 = <[desc := o]> h.
Proof.
  unfold from_dict_to_native, v0_RunDescriber_from_dict,
    current_RunDescriber_from_dict. munfold.
  destruct (getitem dct "version") as [x|e] eqn:Hget; [ | done].
  destruct (py_eq_int x 0) eqn:H0; [ | destruct (py_eq_int x 1) eqn:H1; [ | done]].
  - destruct (v0_from_dict dct) as [d|e] eqn:Hc; [ | done].
    intros [= <- <-]. exists x, (v0_obj d). repeat split; try done.
    apply fresh_unused.
  - destruct (current_from_dict dct) as [d|e] eqn:Hc; [ | done].
    intros [= <- <-]. exists x, (current_obj d). repeat split; try done.
    apply fresh_unused.
Qed.

(** C4: [from_dict_to_current] is [from_dict_to_native] followed by the
    converter registered for the native version and [CURRENT_VERSION].
    When [from_dict_to_native] returns a document, the table has that
    converter, and [from_dict_to_current] returns what the converter
    returns for the document: a document of version 1.  When
    [from_dict_to_native] raises, so does [from_dict_to_current]. *)
Theorem from_dict_to_current_composes (dct : value) (h : heap) :
  match from_dict_to_native dct h with
  | (Ok desc, h1) =>
      ∃ x o f r h2 o',
        getitem dct "version" = Ok x ∧ py_eq_int x (version o) = true
        ∧ h1 !! desc = Some o
        ∧ _converters !! (version o, CURRENT_VERSION) = Some f
        ∧ from_dict_to_current dct h = f desc h1
        ∧ f desc h1 = (Ok r, h2)
        ∧ h2 !! r = Some o' ∧ version o' = 1
  | (Raise e, h1) => from_dict_to_current dct h = (Raise e, h1)
  end.
Proof.
  destruct (from_dict_to_native dct h) as [[desc|e] h1] eqn:Hn;
    [ | by apply from_dict_to_current_raise].
  destruct (from_dict_to_native_Ok _ _ _ _ Hn) as (x & o & Hget & Hx & _ & _ & ->).
  assert (Hd : <[desc := o]> h !! desc = Some o) by apply lookup_insert_eq.
  destruct (proj2 (converters_registered (version o) CURRENT_VERSION)) as [f Hf];
    [split; [apply version_known | by right] | ].
  destruct (converter_call _ _ _ _ _ Hd Hf) as (r & h2 & Hcall & Hr & Hv & _).
  exists x, o, f, r, h2, (converted o CURRENT_VERSION). repeat split; try done.
  unfold from_dict_to_current. munfold.
  by rewrite Hn, (get_version_Some _ _ _ Hd), (converters_getitem_Some _ _ _ Hf).
Qed.

(** ** Round trip at the same version *)

(** C3: the mapping of a valid document, read back by
    [from_dict_to_native] and written by [to_dict_as_version] at the
    document's own version, is the mapping of the document. *)
Theorem roundtrip_same_version (v : Z) (h : heap) (doc : loc) (o : SomeRunDescriber) :
  h !! doc = Some o → version o = v → valid_document o →
  ∃ h', (d ← _to_dict doc;
         native ← from_dict_to_native d;
         to_dict_as_version native v) h
        = (Ok (to_dict o), h').
Proof.
  intros Hd <- [Hver Hback]. munfold. rewrite (_to_dict_Some _ _ _ Hd).
  assert (∃ l, from_dict_to_native (to_dict o) h = (Ok l, <[l := o]> h)) as [l Hn].
  { destruct (alloc_lookup h o) as (l & Ha & _). exists l.
    destruct o as [d|d]; simpl in *.
    - rewrite (from_dict_to_native_v0 _ _ _ Hver) by done.
      unfold v0_RunDescriber_from_dict. munfold. by rewrite Hback.
    - rewrite (from_dict_to_native_current _ _ _ Hver) by done.
      unfold current_RunDescriber_from_dict. munfold. by rewrite Hback. }
  rewrite Hn.
  destruct (to_dict_as_version_known (<[l := o]> h) l o (version o)) as (h' & Hr & _);
    [apply lookup_insert_eq | apply version_known | ].
  exists h'. rewrite Hr. f_equal. f_equal.
  by destruct o.
Qed.

(** ** The class of the mapping handed to the dict functions *)

Lemma py_dict_class (x ser : value) :
  py_dict x = Ok ser → class_of ser = Some PlainDict.
Proof.
  destruct x; simpl; try done.
  - destruct (dict_update_from_seq [] (chars s)); [by intros [= <-] | done].
  - destruct (dict_update_from_seq [] items); [by intros [= <-] | done].
  - destruct (dict_update_from_seq [] items); [by intros [= <-] | done].
  - by intros [= <-].
Qed.

(** [dict] makes a new mapping with the same entries. *)
Example py_dict_entries :
  py_dict (VDict OrderedMap [(VStr "version", VInt 0); (VStr "a", VDict OrderedMap [])])
  = Ok (VDict PlainDict [(VStr "version", VInt 0); (VStr "a", VDict OrderedMap [])]).
Proof. reflexivity. Qed.

Section Yaml.
Context {libs : TextLibraries}.

(** C8, as amended: whatever the YAML text is, the mapping that
    [from_yaml_to_current] hands to [from_dict_to_current] is the
    result of [dict], a plain dict with the entries of the mapping the
    parser returned.  The entries themselves are handed over as they
    are: [dict] is shallow, and a mapping nested in them stays of the
    parser's class.  When the parser or [dict] raises, the dict
    functions are not reached. *)
Theorem from_yaml_to_current_hands_plain_dict (yaml_str : string) (h : heap) :
  match yaml_load yaml_str with
  | Ok loaded =>
      match py_dict loaded with
      | Ok ser =>
          class_of ser = Some PlainDict
          ∧ from_yaml_to_current yaml_str h = from_dict_to_current ser h
          ∧ ∀ cls items, loaded = VDict cls items →
              ser = VDict PlainDict items
              ∧ has_ordered ser
                = existsb (λ kv, has_ordered kv.1 || has_ordered kv.2) items
      | Raise e => from_yaml_to_current yaml_str h = (Raise e, h)
      end
  | Raise e => from_yaml_to_current yaml_str h = (Raise e, h)
  end.
Proof.
  unfold from_yaml_to_current. munfold.
  destruct (yaml_load yaml_str) as [loaded|e]; [ | done].
  destruct (py_dict loaded) as [ser|e] eqn:Hd; [ | done].
  split; [by apply (py_dict_class loaded) | split; [done | ]].
  intros cls items ->. simpl in Hd. injection Hd as <-. by split.
Qed.
End Yaml.

(** ** Mappings that differ in the class of their mappings only *)





Lemma dict_get_wire (items : list (value * value)) (key : string) :
  dict_get (map (λ kv, (kv.1, wire kv.2)) items) key = wire <$> dict_get items key.
Proof.
  induction items as [|[k v] items IH]; [done | ].
  destruct k; simpl; try apply IH.
  by destruct (String.eqb s key).
Qed.

Lemma getitem_wire (d : value) (key : string) :
  getitem (wire d) key
  = match getitem d key with Ok v => Ok (wire v) | Raise e => Raise e end.
Proof.
  destruct d; simpl; try done.
  rewrite dict_get_wire. by destruct (dict_get items key).
Qed.

Lemma py_eq_int_wire (x : value) (n : Z) : py_eq_int (wire x) n = py_eq_int x n.
Proof. by destruct x. Qed.

Lemma getitem_same_wire (d1 d2 : value) (key : string) (x : value) :
  wire d1 = wire d2 → getitem d2 key = Ok x →
  ∃ x', getitem d1 key = Ok x' ∧ wire x' = wire x.
Proof.
  intros Hw Hg. pose proof (getitem_wire d1 key) as H1.
  rewrite Hw, getitem_wire, Hg in H1.
  destruct (getitem d1 key) as [x'|e]; [ | done].
  exists x'. split; [done | congruence].
Qed.

(** [dict] of what the parser read for a mapping is a mapping with the
    same entries. *)
Lemma py_dict_same_wire (loaded dct x : value) (key : string) :
  wire loaded = wire dct → getitem dct key = Ok x →
  ∃ ser, py_dict loaded = Ok ser ∧ wire ser = wire dct.
Proof.
  intros Hw Hg. destruct dct; try done.
  destruct loaded; try done.
  eexists. split; [reflexivity | done].
Qed.

(** ** Reading a stored mapping *)

(** [from_dict_to_current] on a mapping of version 0 that the v0
    constructor accepts: a new object of the current class, the upgrade
    of what the constructor built. *)
Lemma from_dict_to_current_v0 (dct x : value) (d : v0_RunDescriber) (h : heap) :
  getitem dct "version" = Ok x → py_eq_int x 0 = true → v0_from_dict dct = Ok d →
  ∃ r h', from_dict_to_current dct h = (Ok r, h')
          ∧ h' !! r = Some (current_obj (v0_to_v1 d)) ∧ h ⊆ h' ∧ h !! r = None.
Proof.
  intros Hget H0 Hc.
  destruct (alloc_lookup h (v0_obj d)) as (l & Hl & Hfresh).
  set (h1 := <[l := v0_obj d]> h) in *.
  assert (Hd : h1 !! l = Some (v0_obj d)) by apply lookup_insert_eq.
  assert (Hsub : h ⊆ h1) by by apply insert_subseteq.
  destruct (alloc_lookup h1 (current_obj (v0_to_v1 d))) as (r & Hr & Hfresh1).
  exists r, (<[r := current_obj (v0_to_v1 d)]> h1).
  repeat split.
  - unfold from_dict_to_current. munfold.
    rewrite (from_dict_to_native_v0 _ _ _ Hget H0).
    unfold v0_RunDescriber_from_dict. munfold. rewrite Hc, Hl.
    rewrite (get_version_Some _ _ _ Hd). simpl.
    rewrite (converters_getitem_Some (0, CURRENT_VERSION) call_v0_to_v1);
      [ | by rewrite converters_lookup].
    unfold call_v0_to_v1. munfold. by rewrite (deref_Some _ _ _ Hd).
  - apply lookup_insert_eq.
  - etrans; [exact Hsub | by apply insert_subseteq].
  - by eapply lookup_weaken_None.
Qed.

Lemma from_dict_to_current_same_wire (loaded dct : value) (d : v0_RunDescriber)
    (h : heap) :
  v0_reads_as dct → wire loaded = wire dct →
  getitem dct "version" = Ok (VInt 0) → v0_from_dict dct = Ok d →
  ∃ r h', from_dict_to_current loaded h = (Ok r, h')
          ∧ h' !! r = Some (current_obj (v0_to_v1 d)) ∧ h ⊆ h' ∧ h !! r = None.
Proof.
  intros Hreads Hw Hget Hc.
  destruct (getitem_same_wire _ _ _ _ Hw Hget) as (x' & Hget' & Hx).
  apply (from_dict_to_current_v0 loaded x').
  - done.
  - by rewrite <- py_eq_int_wire, Hx.
  - by rewrite (Hreads loaded Hw).
Qed.

Section BothCodecs.
Context {libs : TextLibraries}.

(** C7: a document written for storage as JSON and read back by
    [from_json_to_current], and the same document written as YAML and
    read back by [from_yaml_to_current], give two documents of the
    current version that are equal, in two different objects.  This
    holds for a document whose stored form is a valid v0 document, for
    a v0 constructor that takes a list for a tuple and a mapping of
    either class for a dict of the stored mapping, and for text
    libraries through which the stored mapping round-trips, its tuples
    coming back as lists and its mappings as mappings of the parser's
    class. *)
Theorem json_yaml_same_document (h : heap) (desc : loc) (o : SomeRunDescriber) :
  h !! desc = Some o →
  valid_document (converted o STORAGE_VERSION) →
  v0_reads_as (to_dict (converted o STORAGE_VERSION)) →
  text_roundtrips json_dumps json_loads (to_dict (converted o STORAGE_VERSION)) →
  text_roundtrips yaml_dump yaml_load (to_dict (converted o STORAGE_VERSION)) →
  ∃ a b h' doc,
    (json_str ← to_json_for_storage desc;
     from_json ← from_json_to_current json_str;
     yaml_str ← to_yaml_for_storage desc;
     from_yaml ← from_yaml_to_current yaml_str;
     mret (from_json, from_yaml)) h = (Ok (a, b), h')
    ∧ h' !! a = Some (current_obj doc) ∧ h' !! b = Some (current_obj doc)
    ∧ a ≠ b.
Proof.
  intros Hd [Hver Hback] Hblind (tj & lj & Hdj & Hlj & Hpj) (ty & ly & Hdy & Hly & Hpy).
  assert (∃ d0, converted o STORAGE_VERSION = v0_obj d0) as [d0 Hst]
    by (destruct o; simpl; eauto).
  rewrite Hst in *. simpl in Hver, Hback, Hdj, Hpj, Hdy, Hpy.
  set (dct := v0_to_dict d0) in *.
  assert (Hstore : ∀ h0, h0 !! desc = Some o →
            ∃ h1, to_dict_for_storage desc h0 = (Ok dct, h1) ∧ h0 ⊆ h1).
  { intros h0 Hd0.
    destruct (to_dict_as_version_known h0 desc o STORAGE_VERSION Hd0) as (h1 & Hr & Hs);
      [by left | ].
    exists h1. by rewrite Hst in Hr. }
  destruct (Hstore h Hd) as (h1 & Hs1 & Hsub1).
  destruct (from_dict_to_current_same_wire lj dct d0 h1 Hblind Hpj Hver Hback)
    as (a & h2 & Ha & Hha & Hsub2 & _).
  assert (Hd2 : h2 !! desc = Some o).
  { eapply lookup_weaken; [ | exact Hsub2]. by eapply lookup_weaken. }
  destruct (Hstore h2 Hd2) as (h3 & Hs3 & Hsub3).
  destruct (py_dict_same_wire ly dct _ _ Hpy Hver) as (ser & Hser & Hps).
  destruct (from_dict_to_current_same_wire ser dct d0 h3 Hblind Hps Hver Hback)
    as (b & h4 & Hb & Hhb & Hsub4 & Hfresh).
  exists a, b, h4, (v0_to_v1 d0). repeat split.
  - unfold to_json_for_storage, to_yaml_for_storage. munfold.
    rewrite Hs1, Hdj, (from_json_to_current_loads _ _ _ Hlj), Ha.
    by rewrite Hs3, Hdy, (from_yaml_to_current_loads _ _ _ _ Hly Hser), Hb.
  - eapply lookup_weaken; [ | exact Hsub4]. by apply (lookup_weaken _ _ _ _ Hha).
  - done.
  - intros ->. pose proof (lookup_weaken _ _ _ _ Hha Hsub3). congruence.
Qed.
End BothCodecs.
End Properties.

(** * Further properties of serialization.py *)

Section Further.
Context {docs : Documents}.

(** ** Mappings without a usable version *)

(** X1: a mapping with no entry under the string ['version'] makes
    [from_dict_to_native] raise [KeyError('version')] before either
    constructor is called: no object is made, and
    [from_dict_to_current] raises the same. *)
Theorem missing_version_key (cls : mapping_class) (items : list (value * value))
    (h : heap) :
  dict_get items "version" = None →
  from_dict_to_native (VDict cls items) h = (Raise (KeyError (VStr "version")), h)
  ∧ from_dict_to_current (VDict cls items) h = (Raise (KeyError (VStr "version")), h).
Proof.
  intros Hk.
  assert (Hn : from_dict_to_native (VDict cls items) h
               = (Raise (KeyError (VStr "version")), h)).
  { unfold from_dict_to_native. munfold. simpl. by rewrite Hk. }
  split; [done | by apply from_dict_to_current_raise].
Qed.

(** ** What [from_dict_to_native] adds to the store *)

(** X2: when [from_dict_to_native] returns, it has made exactly one
    object, at a location that was not in use; the version of that
    object equals the [version] entry of the mapping, and every object
    that was in the store is still there, unchanged. *)
Theorem from_dict_to_native_new_object (dct : value) (h h1 : heap) (desc : loc) :
  from_dict_to_native dct h = (Ok desc, h1) →
  ∃ x o, getitem dct "version" = Ok x ∧ py_eq_int x (version o) = true
         ∧ h !! desc = None ∧ h1 = <[desc := o]> h
         ∧ ∀ l o', h !! l = Some o' → h1 !! l = Some o'.
Proof.
  intros Hn.
  destruct (from_dict_to_native_Ok _ _ _ _ Hn) as (x & o & Hget & Hx & _ & Hfresh & ->).
  exists x, o. repeat split; try done.
  intros l o' Hl. rewrite lookup_insert_ne; [done | congruence].
Qed.

(** ** Mappings of the current version and of version 0 *)

(** X3: on a mapping whose [version] entry equals 1,
    [from_dict_to_current] is [from_dict_to_native]: the converter is
    the identity, so the document returned is the object the
    constructor made and no second object exists; an exception of the
    constructor is the exception of both. *)
Theorem from_dict_to_current_of_current (dct x : value) (h : heap) :
  getitem dct "version" = Ok x → py_eq_int x 1 = true →
  from_dict_to_current dct h = from_dict_to_native dct h.
Proof.
  intros Hget H1. unfold from_dict_to_current. munfold.
  rewrite (from_dict_to_native_current _ _ _ Hget H1).
  unfold current_RunDescriber_from_dict. munfold.
  destruct (current_from_dict dct) as [d|e]; [ | done].
  destruct (alloc_lookup h (current_obj d)) as (l & -> & _).
  rewrite (get_version_Some _ l (current_obj d)) by apply lookup_insert_eq.
  simpl. by rewrite (converters_getitem_Some (1, CURRENT_VERSION) (λ x : loc, mret x))
    by by rewrite converters_lookup.
Qed.

(** X4: on a mapping whose [version] entry equals 0 and that the v0
    constructor accepts, [from_dict_to_current] makes two objects: the
    v0 document, which is what [from_dict_to_native] returns, and its
    upgrade, which is what [from_dict_to_current] returns.  The two are
    different instances and both stay in the store. *)
Theorem from_dict_to_current_of_v0 (dct x : value) (d : v0_RunDescriber) (h : heap) :
  getitem dct "version" = Ok x → py_eq_int x 0 = true → v0_from_dict dct = Ok d →
  ∃ native r,
    from_dict_to_native dct h = (Ok native, <[native := v0_obj d]> h)
    ∧ from_dict_to_current dct h
      = (Ok r, <[r := current_obj (v0_to_v1 d)]> (<[native := v0_obj d]> h))
    ∧ h !! native = None ∧ h !! r = None ∧ native ≠ r.
Proof.
  intros Hget H0 Hc.
  destruct (alloc_lookup h (v0_obj d)) as (l & Hl & Hfresh).
  set (h1 := <[l := v0_obj d]> h) in *.
  assert (Hd : h1 !! l = Some (v0_obj d)) by apply lookup_insert_eq.
  destruct (alloc_lookup h1 (current_obj (v0_to_v1 d))) as (r & Hr & Hfresh1).
  assert (Hn : from_dict_to_native dct h = (Ok l, h1)).
  { rewrite (from_dict_to_native_v0 _ _ _ Hget H0).
    unfold v0_RunDescriber_from_dict. munfold. by rewrite Hc. }
  exists l, r. repeat split; try done.
  - unfold from_dict_to_current. munfold. rewrite Hn.
    rewrite (get_version_Some _ _ _ Hd). simpl.
    rewrite (converters_getitem_Some (0, CURRENT_VERSION) call_v0_to_v1)
      by by rewrite converters_lookup.
    unfold call_v0_to_v1. munfold. by rewrite (deref_Some _ _ _ Hd).
  - eapply lookup_weaken_None; [exact Hfresh1 | by apply insert_subseteq].
  - intros ->. congruence.
Qed.

(** ** Writing a document at its own version *)

(** X5: [to_dict_as_version] at the document's own version returns the
    document's own mapping and makes no object: the store is the one it
    started from. *)
Theorem to_dict_as_version_own_version (h : heap) (desc : loc) (o : SomeRunDescriber) :
  h !! desc = Some o →
  to_dict_as_version desc (version o) h = (Ok (to_dict o), h).
Proof.
  intros Hd. unfold to_dict_as_version. munfold.
  rewrite (get_version_Some _ _ _ Hd).
  rewrite (converters_getitem_Some (version o, version o) (λ x : loc, mret x)).
  - unfold mret, M_ret, ret. apply (_to_dict_Some _ _ _ Hd).
  - rewrite converters_lookup. by destruct o.
Qed.

(** ** Storing and reading back *)

(** X7: the mapping written for storage, read back by
    [from_dict_to_current], gives a new object, not the one that was
    stored, holding the upgrade of the document's stored form; the
    stored document itself is untouched.  When the document is of the
    current class and the upgrade undoes the downgrade on it, the new
    object equals it. *)
Theorem storage_roundtrip (h : heap) (desc : loc) (o : SomeRunDescriber) :
  h !! desc = Some o →
  valid_document (converted o STORAGE_VERSION) →
  ∃ r h',
    (d ← to_dict_for_storage desc; from_dict_to_current d) h = (Ok r, h')
    ∧ r ≠ desc ∧ h' !! desc = Some o
    ∧ h' !! r = Some (converted (converted o STORAGE_VERSION) CURRENT_VERSION)
    ∧ ∀ d, o = current_obj d → v0_to_v1 (v1_to_v0 d) = d → h' !! r = Some o.
Proof.
  intros Hd [Hver Hback].
  assert (∃ d0, converted o STORAGE_VERSION = v0_obj d0) as [d0 Hst]
    by (destruct o; simpl; eauto).
  rewrite Hst in *. simpl in Hver, Hback.
  destruct (to_dict_as_version_known h desc o STORAGE_VERSION Hd) as (h1 & Hs & Hsub);
    [by left | ].
  rewrite Hst in Hs. simpl in Hs.
  destruct (from_dict_to_current_v0 _ _ d0 h1 Hver eq_refl Hback)
    as (r & h2 & Hc & Hr & Hsub2 & Hfresh).
  assert (Hd1 : h1 !! desc = Some o) by by eapply lookup_weaken.
  exists r, h2. munfold. unfold to_dict_for_storage. rewrite Hs, Hc.
  repeat split; try done.
  - intros ->. congruence.
  - by eapply lookup_weaken.
  - intros d -> Hinv. simpl in Hst. injection Hst as <-. by rewrite Hr, Hinv.
Qed.


Section FurtherText.
Context {libs : TextLibraries}.

(** X8: [to_json_as_version] is [json.dumps] of the mapping of the
    converted document for a known target version, with whatever
    [json.dumps] returns or raises; for any other target version it
    raises the [KeyError] of the table and [json.dumps] is not
    reached. *)
Theorem to_json_as_version_spec (h : heap) (desc : loc) (o : SomeRunDescriber)
    (target : Z) :
  h !! desc = Some o →
  (known_version target →
     ∃ h', to_json_as_version desc target h
           = (json_dumps (to_dict (converted o target)), h'))
  ∧ (¬ known_version target →
     to_json_as_version desc target h
     = (Raise (UnsupportedConversionError (version o, target)), h)).
Proof.
  intros Hd. unfold to_json_as_version. munfold. split.
  - intros Ht. destruct (to_dict_as_version_known _ _ _ _ Hd Ht) as (h' & -> & _).
    by exists h'.
  - intros Ht. rewrite (to_dict_as_version_unregistered _ _ o); [done | done | ].
    destruct (_converters !! (version o, target)) eqn:Hf; [ | done].
    destruct Ht. by apply (converters_registered (version o) target).
Qed.


(** X10: when [json.loads] raises, [from_json_to_native] and
    [from_json_to_current] raise the exception of the parser; when it
    returns something that is not a mapping (a list, a string, a
    number, [None]) they raise the [TypeError] of the subscription.  In
    both cases no object is made. *)
Theorem from_json_without_mapping (json_str : string) (h : heap) :
  (∀ e, json_loads json_str = Raise e →
     from_json_to_native json_str h = (Raise e, h)
     ∧ from_json_to_current json_str h = (Raise e, h))
  ∧ (∀ v, json_loads json_str = Ok v → class_of v = None →
     ∃ msg, from_json_to_native json_str h = (Raise (TypeError msg), h)
            ∧ from_json_to_current json_str h = (Raise (TypeError msg), h)).
Proof.
  split.
  - intros e He. unfold from_json_to_native, from_json_to_current. munfold.
    by rewrite He.
  - intros v Hl Hc.
    rewrite (from_json_to_native_loads _ _ _ Hl), (from_json_to_current_loads _ _ _ Hl).
    assert (∃ msg, from_dict_to_native v h = (Raise (TypeError msg), h)) as [msg Hn].
    { unfold from_dict_to_native. munfold. destruct v; simpl; try done; eauto. }
    exists msg. split; [done | by apply from_dict_to_current_raise].
Qed.

(** X11: a YAML text that the parser reads as a scalar that is no
    string, [None] for the empty document, a number or a bool, makes
    [from_yaml_to_current] raise the [TypeError] of [dict]; the dict
    functions are not reached and no object is made. *)
Theorem from_yaml_scalar_document (yaml_str : string) (v : value) (h : heap) :
  yaml_load yaml_str = Ok v → not_iterable v = true →
  from_yaml_to_current yaml_str h = (Raise (TypeError "object is not iterable"), h).
Proof.
  intros Hl Hv. unfold from_yaml_to_current. munfold. rewrite Hl.
  by destruct v.
Qed.
End FurtherText.
End Further.

(** * Properties of KeysightB1517A.py *)

Module KeysightB1517AFacts.
Import KeysightB1517A.

(** Unfolds the operations of a method. *)
Ltac dunfold :=
  unfold write, ask in *;
  unfold mbind, mret, D_bind, D_ret, get, modify, raise, lift in *.

Section Facts.
Context {ins : Collaborators}.

(** ** Forcing voltage and forcing current *)

Lemma _set_voltage_current_range (value : float) (self : B1517A) (r : IOutputRange) :
  output_range (_source_config self) = Some (IRange r) →
  _set_voltage value self = (Raises voltage_error, self).
Proof. intros Hr. unfold _set_voltage. dunfold. rewrite Hr. simpl. by rewrite Hr. Qed.

Lemma _set_current_voltage_range (value : float) (self : B1517A) (r : VOutputRange) :
  output_range (_source_config self) = Some (VRange r) →
  _set_current value self = (Raises current_error, self).
Proof. intros Hr. unfold _set_current. dunfold. rewrite Hr. simpl. by rewrite Hr. Qed.

(** After [_set_voltage], whatever it returned or raised, the output
    range is a voltage range, unless it was a current range before. *)
Lemma _set_voltage_output_range (value : float) (self : B1517A) :
  (∃ r, output_range (_source_config self) = Some (IRange r))
  ∨ ∃ r, output_range (_source_config (_set_voltage value self).2) = Some (VRange r).
Proof.
  unfold _set_voltage. dunfold.
  destruct (output_range (_source_config self)) as [[r|r]|] eqn:Hr; simpl.
  - right. exists r. rewrite Hr. by destruct (dv _ _ _ _ _ _).
  - left. by exists r.
  - right. exists VOutputRange_AUTO. by destruct (dv _ _ _ _ _ _).
Qed.

Lemma _set_current_output_range (value : float) (self : B1517A) :
  (∃ r, output_range (_source_config self) = Some (VRange r))
  ∨ ∃ r, output_range (_source_config (_set_current value self).2) = Some (IRange r).
Proof.
  unfold _set_current. dunfold.
  destruct (output_range (_source_config self)) as [[r|r]|] eqn:Hr; simpl.
  - left. by exists r.
  - right. exists r. rewrite Hr. by destruct (di _ _ _ _ _ _).
  - right. exists IOutputRange_AUTO. by destruct (di _ _ _ _ _ _).
Qed.

(** X12: once [_set_voltage] has returned, [_set_current] raises its
    [TypeError] for every value, sends nothing and changes nothing; and
    the same with voltage and current exchanged.  A module that has
    forced one quantity forces the other only after [source_config]. *)
Theorem force_kinds_exclusive (self self' : B1517A) (value value' : float) :
  (_set_voltage value self = (Returns tt, self') →
     _set_current value' self' = (Raises current_error, self'))
  ∧ (_set_current value self = (Returns tt, self') →
     _set_voltage value' self' = (Raises voltage_error, self')).
Proof.
  split; intros Hset.
  - destruct (_set_voltage_output_range value self) as [[r Hr] | [r Hr]].
    + rewrite (_set_voltage_current_range _ _ _ Hr) in Hset. done.
    + rewrite Hset in Hr. by apply (_set_current_voltage_range _ _ r).
  - destruct (_set_current_output_range value self) as [[r Hr] | [r Hr]].
    + rewrite (_set_current_voltage_range _ _ _ Hr) in Hset. done.
    + rewrite Hset in Hr. by apply (_set_voltage_current_range _ _ r).
Qed.

(** X13: on a module with no output range, [_set_voltage] records the
    voltage range [AUTO] before it builds the command.  When the
    command cannot be built, the call raises and sends nothing, but the
    range stays recorded, and [_set_current] raises its [TypeError] from
    then on although no voltage was forced. *)
Theorem set_voltage_records_range_first (self : B1517A) (value value' : float)
    (e : error) :
  output_range (_source_config self) = None →
  dv (channels self) VOutputRange_AUTO value (compliance (_source_config self))
     (compl_polarity (_source_config self))
     (min_compliance_range (_source_config self)) = Raises e →
  ∃ self', _set_voltage value self = (Raises e, self')
           ∧ io self' = io self
           ∧ output_range (_source_config self') = Some (VRange VOutputRange_AUTO)
           ∧ _set_current value' self' = (Raises current_error, self').
Proof.
  intros Hr Hdv.
  exists (with_source_config
            (with_output_range (VRange VOutputRange_AUTO) (_source_config self)) self).
  split; [ | split; [done | split; [done | ]]].
  - unfold _set_voltage. dunfold. rewrite Hr. simpl. by rewrite Hdv.
  - by apply (_set_current_voltage_range _ _ VOutputRange_AUTO).
Qed.

(** ** [source_config] *)

Lemma source_config_raises (self : B1517A)
    (o m : OutputRange VOutputRange IOutputRange) (c : option numeric)
    (p : option CompliancePolarityMode) :
  same_kind m o = true →
  ∃ msg, source_config o c p (Some m) self = (Raises (Builtin (TypeError msg)), self).
Proof. intros Hk. unfold source_config. dunfold. rewrite Hk. eauto. Qed.

Lemma source_config_returns (self : B1517A)
    (o : OutputRange VOutputRange IOutputRange) (c : option numeric)
    (p : option CompliancePolarityMode)
    (m : option (OutputRange VOutputRange IOutputRange)) :
  (∀ r, m = Some r → same_kind r o = false) →
  source_config o c p m self
  = (Returns tt,
     with_source_config
       {| output_range := Some o; compliance := c; compl_polarity := p;
          min_compliance_range := m |} self).
Proof.
  intros Hk. unfold source_config. dunfold.
  destruct m as [r|]; [by rewrite (Hk r) | done].
Qed.

(** X14: [source_config] with a voltage output range, once it has
    returned, decides the next forcing: [_set_voltage] builds the [DV]
    command from the channel and exactly the four configured entries
    and sends it when it could be built, and [_set_current] raises its
    [TypeError].  What was configured before is gone. *)
Theorem source_config_then_force (self self' : B1517A) (r : VOutputRange)
    (c : option numeric) (p : option CompliancePolarityMode)
    (m : option (OutputRange VOutputRange IOutputRange)) (value : float) :
  source_config (VRange r) c p m self = (Returns tt, self') →
  _set_voltage value self'
  = match dv (channels self) r value c p m with
    | Returns msg => (Returns tt, with_event (Write msg) self')
    | Raises e => (Raises e, self')
    end
  ∧ _set_current value self' = (Raises current_error, self').
Proof.
  intros Hs.
  assert (Hm : ∀ x, m = Some x → same_kind x (VRange r) = false).
  { intros x ->. destruct (same_kind x (VRange r)) eqn:Hk; [ | done].
    destruct (source_config_raises self _ _ c p Hk) as [msg Hraise]. congruence. }
  rewrite (source_config_returns _ _ _ _ _ Hm) in Hs. injection Hs as <-.
  split; [ | by apply (_set_current_voltage_range _ _ r)].
  unfold _set_voltage. dunfold. simpl. by destruct (dv _ _ _ _ _ _).
Qed.

(** ** Timing parameters *)

(** X15: when [timing_parameters] returns, the validator has accepted
    the interval, [_get_number_of_samples] returns the number given and
    [_total_measurement_time] the float of interval times number.  When
    the validator rejects the interval, the call raises what the
    validator raised, records nothing and sends nothing. *)
Theorem timing_parameters_then_samples (self : B1517A) (hb i : float) (n : Z)
    (hbase : option float) :
  (∀ self', timing_parameters hb i n hbase self = (Returns tt, self') →
     _interval_validator_validate i = Returns tt
     ∧ _get_number_of_samples self' = (Returns n, self')
     ∧ _total_measurement_time self' = (float_of_product i n, self'))
  ∧ (∀ e, _interval_validator_validate i = Raises e →
     timing_parameters hb i n hbase self = (Raises e, self)).
Proof.
  split.
  - intros self'. unfold timing_parameters. dunfold.
    destruct (_interval_validator_validate i) as [[]|e]; [ | done].
    destruct (mt hb i n hbase) as [msg|e]; [ | done].
    by intros [= <-].
  - intros e He. unfold timing_parameters. dunfold. by rewrite He.
Qed.

(** X16: [timing_parameters] records the parameters before it builds
    the [MT] command.  When the interval is valid and the command
    cannot be built, the call raises and nothing is sent, but the
    parameters are recorded: [_get_number_of_samples] returns the new
    number. *)
Theorem timing_parameters_records_first (self : B1517A) (hb i : float) (n : Z)
    (hbase : option float) (e : error) :
  _interval_validator_validate i = Returns tt →
  mt hb i n hbase = Raises e →
  ∃ self', timing_parameters hb i n hbase self = (Raises e, self')
           ∧ io self' = io self
           ∧ _get_number_of_samples self' = (Returns n, self').
Proof.
  intros Hv Hmt. eexists. unfold timing_parameters. dunfold.
  rewrite Hv, Hmt. by repeat split.
Qed.

(** ** What holds after any sequence of calls *)

Lemma __init___consistent (chnum : ChNr) : consistent chnum (__init__ chnum).
Proof. by repeat split. Qed.

(** What a call can do to the configuration: the channel stays; the
    source configuration stays, or gets an output range where it had
    none, or is replaced by an accepted one; the timing parameters stay
    or are replaced by ones with an accepted interval. *)
Lemma after_call_effect (c : call) (self : B1517A) :
  channels (after_call c self) = channels self
  ∧ (_source_config (after_call c self) = _source_config self
     ∨ (output_range (_source_config self) = None
        ∧ ∃ r, _source_config (after_call c self)
               = with_output_range r (_source_config self))
     ∨ ∃ o cc p m, (∀ x, m = Some x → same_kind x o = false)
         ∧ _source_config (after_call c self)
           = {| output_range := Some o; compliance := cc; compl_polarity := p;
                min_compliance_range := m |})
  ∧ (_timing_parameters (after_call c self) = _timing_parameters self
     ∨ ∃ hb i n hbase, _interval_validator_validate i = Returns tt
         ∧ _timing_parameters (after_call c self)
           = {| h_bias := Some hb; interval := Some i; number := Some n;
                h_base := hbase |}).
Proof.
  destruct c; simpl;
    unfold _set_voltage, _set_current, _get_voltage, _get_current,
      _set_measurement_mode, _get_time_axis, _total_measurement_time,
      source_config, measure_config, timing_parameters, use_high_speed_adc,
      use_high_resolution_adc; dunfold;
    repeat (case_match; simpl in *; simplify_eq); simpl;
    (split; [done | split]); eauto 10.
  all: try (right; right; eexists _, _, _, _; split; [ | reflexivity];
            intros ? ?; by simplify_eq).
  all: right; eexists _, _, _, _; split; [ | reflexivity];
    match goal with
    | Hv : _interval_validator_validate _ = Returns ?u |- _ => by destruct u
    end.
Qed.

Lemma after_call_consistent (chnum : ChNr) (c : call) (self : B1517A) :
  consistent chnum self → consistent chnum (after_call c self).
Proof.
  intros (Hch & Hsrc & Htim).
  destruct (after_call_effect c self) as (Hc & Hs & Ht).
  split; [congruence | split].
  - destruct Hs as [-> | [(Hnone & r & ->) | (o & cc & p & m & Hm & ->)]];
      [done | | done].
    unfold source_consistent in *. rewrite Hnone in Hsrc.
    destruct Hsrc as (_ & _ & Hmin). simpl. intros m'. by rewrite Hmin.
  - by destruct Ht as [-> | (hb & i & n & hbase & Hv & ->)].
Qed.

(** X17: after any sequence of calls on a new module, whichever of
    them raised, the channel is the one of the slot, the compliance
    range in the source configuration is absent or a range of the other
    kind than the output range, and the timing parameters are either
    all unset or set together with an interval the validator
    accepted. *)
Theorem calls_keep_configuration_consistent (chnum : ChNr) (calls : list call) :
  consistent chnum (after_calls calls (__init__ chnum)).
Proof.
  unfold after_calls.
  generalize (__init___consistent chnum). generalize (__init__ chnum).
  induction calls as [|c calls IH]; intros self Hself; [done | ].
  simpl. apply IH. by apply after_call_consistent.
Qed.

(** X18: after any sequence of calls on a new module the readers of
    the timing parameters agree: either [_get_number_of_samples],
    [_total_measurement_time] and [_get_time_axis] all raise
    [Exception('set timing parameters first')], or the first returns
    the recorded number and the second is the float of the product of
    the recorded interval, which the validator accepted, and that
    number. *)
Theorem timing_readers_agree (chnum : ChNr) (calls : list call) :
  let self := after_calls calls (__init__ chnum) in
  (_get_number_of_samples self = (Raises unset_error, self)
   ∧ _total_measurement_time self = (Raises unset_error, self)
   ∧ _get_time_axis self = (Raises unset_error, self))
  ∨ ∃ i n, _interval_validator_validate i = Returns tt
           ∧ _get_number_of_samples self = (Returns n, self)
           ∧ _total_measurement_time self = (float_of_product i n, self).
Proof.
  intros self.
  destruct (calls_keep_configuration_consistent chnum calls) as (_ & _ & Ht).
  fold self in Ht. unfold timing_consistent in Ht.
  unfold _get_time_axis, _get_number_of_samples, _total_measurement_time. dunfold.
  destruct (h_bias _), (interval _) as [i|], (number _) as [n|]; try done.
  - right. by exists i, n.
  - by left.
Qed.

(** ** What a call sends *)

(** X19: a call sends at most one command and never removes one that
    was sent.  A call that raises has sent nothing, unless it is the
    reading of voltage or current, which raises after its query when
    the instrument or the parser fails; [source_config] and
    [measure_config] never send anything. *)
Theorem call_sends_at_most_one (c : call) (self : B1517A) :
  at_most_one_more (io self) (io (after_call c self))
  ∧ match c with
    | Voltage_get | Current_get => True
    | Source_config _ _ _ _ | Measure_config _ => io (after_call c self) = io self
    | Voltage_set v => ∀ e, (_set_voltage v self).1 = Raises e →
                            io (after_call c self) = io self
    | Current_set v => ∀ e, (_set_current v self).1 = Raises e →
                            io (after_call c self) = io self
    | Measurement_mode_set m => ∀ e, (_set_measurement_mode m self).1 = Raises e →
                                     io (after_call c self) = io self
    | Time_axis_get => io (after_call c self) = io self
    | Timing_parameters hb i n hbase =>
        ∀ e, (timing_parameters hb i n hbase self).1 = Raises e →
             io (after_call c self) = io self
    | Use_high_speed_adc => ∀ e, (use_high_speed_adc self).1 = Raises e →
                                 io (after_call c self) = io self
    | Use_high_resolution_adc => ∀ e, (use_high_resolution_adc self).1 = Raises e →
                                      io (after_call c self) = io self
    end.
Proof.
  unfold at_most_one_more.
  destruct c; simpl;
    unfold _set_voltage, _set_current, _get_voltage, _get_current,
      _set_measurement_mode, _get_time_axis, _total_measurement_time,
      source_config, measure_config, timing_parameters, use_high_speed_adc,
      use_high_resolution_adc; dunfold;
    repeat (case_match; simpl in *; simplify_eq); simpl;
    (split; [eauto | try done; intros; by simplify_eq]).
Qed.
End Facts.
End KeysightB1517AFacts.

(** * The statements on the sample instance *)

Module SampleFacts.
Import Sample.







Lemma sample_yaml_roundtrips : roundtrips yaml_dump yaml_load stored.
Proof.
  exists (render EmptyString stored), (ordered stored).
  split; [reflexivity | split; by vm_compute].
Qed.
End SampleFacts.

Module SampleTupleFacts.
Import SampleTuple.

Lemma str_list_wire (items : list value) :
  Sample.str_list (map wire items) = Sample.str_list items.
Proof.
  induction items as [|x items IH]; [done | ].
  destruct x; simpl; try done. by rewrite IH.
Qed.

Lemma strs_wire (v : value) : Sample.strs (wire v) = Sample.strs v.
Proof. destruct v; simpl; try done; apply str_list_wire. Qed.

Lemma old_from_dict_wire (d : value) :
  Sample.old_from_dict (wire d) = Sample.old_from_dict d.
Proof.
  unfold Sample.old_from_dict. rewrite getitem_wire.
  destruct (getitem d "interdependencies") as [idp|e]; simpl; [ | done].
  rewrite getitem_wire.
  destruct (getitem idp "paramspecs") as [ps|e]; simpl; [ | done].
  by rewrite strs_wire.
Qed.

Lemma tuple_v0_reads_as (dct : value) : v0_reads_as dct.
Proof.
  intros d Hw. simpl.
  by rewrite <- (old_from_dict_wire d), Hw, old_from_dict_wire.
Qed.

(** The tuple of the stored mapping comes back from JSON as a list. *)
Example stored_tuple_read_as_list :
  json_loads (Sample.render Sample.dquote stored)
  = Ok (VDict PlainDict
          [(VStr "version", VInt 0);
           (VStr "interdependencies",
             VDict PlainDict [(VStr "paramspecs", VList [VStr "y"; VStr "x"])])]).
Proof. by vm_compute. Qed.

Lemma tuple_json_roundtrips : text_roundtrips json_dumps json_loads stored.
Proof.
  exists (Sample.render Sample.dquote stored), (as_lists stored).
  split; [reflexivity | split; by vm_compute].
Qed.

Lemma tuple_yaml_roundtrips : text_roundtrips yaml_dump yaml_load stored.
Proof.
  exists (Sample.render EmptyString stored), (Sample.ordered (as_lists stored)).
  split; [reflexivity | split; by vm_compute].
Qed.

(** The document of version 1, whose stored mapping holds a tuple,
    through both text codecs. *)
Lemma json_yaml_same_document_witness :
  ∃ a b h' doc,
    (json_str ← to_json_for_storage 2%positive;
     from_json ← from_json_to_current json_str;
     yaml_str ← to_yaml_for_storage 2%positive;
     from_yaml ← from_yaml_to_current yaml_str;
     mret (from_json, from_yaml)) store = (Ok (a, b), h')
    ∧ h' !! a = Some (current_obj doc) ∧ h' !! b = Some (current_obj doc)
    ∧ a ≠ b.
Proof.
  apply (json_yaml_same_document store 2%positive obj1).
  - by vm_compute.
  - split; reflexivity.
  - exact (tuple_v0_reads_as _).
  - exact tuple_json_roundtrips.
  - exact tuple_yaml_roundtrips.
Defined.
End SampleTupleFacts.

Import Sample.

(** A dict of version 999 on the sample store. *)
Lemma unknown_version_raises_witness :
  from_dict_to_native dct999 store
  = (Raise (UnknownVersionError dct999), store).
Proof.
  refine (proj1 (unknown_version_raises (libs := text_libraries)
                   dct999 (VInt 999) store _ _ _));
    reflexivity.
Defined.

(** The mapping of a v0 document goes to the v0 constructor. *)
Lemma from_dict_to_native_dispatch_witness :
  from_dict_to_native (old_to_dict doc0) store
  = v0_RunDescriber_from_dict (old_to_dict doc0) store.
Proof.
  refine (proj1 (from_dict_to_native_dispatch (old_to_dict doc0)
                   (VInt 0) store _) _);
    reflexivity.
Defined.

(** The entry for [(1, 1)]. *)
Lemma identity_converter_same_instance_witness :
  ∃ f, _converters !! (1, 1) = Some f
       ∧ ∀ (d : loc) (h : heap), f d h = (Ok d, h).
Proof.
  apply (identity_converter_same_instance (docs := documents) 1).
  right. reflexivity.
Defined.

(** A document of version 1 asked for at version 7. *)
Lemma to_dict_as_version_lookup_witness :
  to_dict_as_version 2%positive 7 store
  = (Raise (UnsupportedConversionError (1, 7)), store).
Proof.
  refine (proj2 (proj2 (to_dict_as_version_lookup store 2%positive
                          obj1 7 _)) _);
    by vm_compute.
Defined.

(** The upgrade from 0 to 1 has its downgrade, and the document of
    version 1 is written at the storage version. *)
Lemma converter_coverage_symmetric_witness :
  is_Some (_converters !! (1, 0))
  ∧ ∃ h', to_dict_for_storage 2%positive store
          = (Ok (to_dict (converted obj1 STORAGE_VERSION)), h').
Proof.
  apply (converter_coverage_symmetric 0 1 store 2%positive
           obj1).
  - rewrite converters_lookup. simpl. eauto.
  - by vm_compute.
Defined.

(** The round trip of the sample document of version 1. *)
Lemma roundtrip_same_version_witness :
  ∃ h', (d ← _to_dict 2%positive;
         native ← from_dict_to_native d;
         to_dict_as_version native 1) store
        = (Ok (new_to_dict doc1), h').
Proof.
  apply (roundtrip_same_version 1 store 2%positive obj1).
  - by vm_compute.
  - reflexivity.
  - split; reflexivity.
Defined.

(** ** The scenario of a version-1 document stored and read back *)

(** Written at version 0, the document of version 1 loses the split of
    its parameters. *)
Example stored_mapping :
  (to_dict_as_version 2%positive 0 store).1 = Ok stored.
Proof. by vm_compute. Qed.

(** Read back, the stored mapping gives a document of version 1 with
    no dependent parameter. *)
Example stored_mapping_to_current :
  (x ← from_dict_to_current stored; _to_dict x) store
  = (Ok (new_to_dict {| dependent := []; standalone := ["y"; "x"] |}),
     <[4%positive := current_obj {| dependent := []; standalone := ["y"; "x"] |}]>
       (<[3%positive := v0_obj (downgrade doc1)]> store)).
Proof. by vm_compute. Qed.

(** A float or a bool that equals 1 selects the current class. *)
Example version_entry_float :
  from_dict_to_native (VDict PlainDict [(VStr "version", VFloat 1%float)]) store
  = current_RunDescriber_from_dict
      (VDict PlainDict [(VStr "version", VFloat 1%float)]) store.
Proof. reflexivity. Qed.

(** The YAML text of the stored mapping is parsed into ordered
    mappings; the dict functions get a plain dict whose entries are
    those of the parser. *)
Example yaml_text_to_dict :
  yaml_load "{version: 0, interdependencies: {paramspecs: [y, x]}}"
  = Ok (ordered stored)
  ∧ py_dict (ordered stored)
    = Ok (VDict PlainDict
            [(VStr "version", VInt 0);
             (VStr "interdependencies",
               VDict OrderedMap [(VStr "paramspecs", VList [VStr "y"; VStr "x"])])]).
Proof. split; by vm_compute. Qed.

(** C8, as first stated, fails: for this YAML text the mapping handed
    to [from_dict_to_current] is a plain dict, but the mapping under
    ['interdependencies'] in it is the ordered mapping the parser
    built. *)
Lemma nested_parser_mapping_reaches_dict_functions :
  yaml_load "{version: 0, interdependencies: {paramspecs: [y, x]}}"
  = Ok (ordered stored)
  ∧ py_dict (ordered stored)
    = Ok (VDict PlainDict
            [(VStr "version", VInt 0);
             (VStr "interdependencies",
               VDict OrderedMap [(VStr "paramspecs", VList [VStr "y"; VStr "x"])])])
  ∧ from_yaml_to_current "{version: 0, interdependencies: {paramspecs: [y, x]}}" store
    = from_dict_to_current
        (VDict PlainDict
           [(VStr "version", VInt 0);
            (VStr "interdependencies",
              VDict OrderedMap [(VStr "paramspecs", VList [VStr "y"; VStr "x"])])])
        store
  ∧ getitem
      (VDict PlainDict
         [(VStr "version", VInt 0);
          (VStr "interdependencies",
            VDict OrderedMap [(VStr "paramspecs", VList [VStr "y"; VStr "x"])])])
      "interdependencies"
    = Ok (VDict OrderedMap [(VStr "paramspecs", VList [VStr "y"; VStr "x"])])
  ∧ has_ordered
      (VDict PlainDict
         [(VStr "version", VInt 0);
          (VStr "interdependencies",
            VDict OrderedMap [(VStr "paramspecs", VList [VStr "y"; VStr "x"])])])
    = true.
Proof. repeat split; by vm_compute. Qed.

(** * The further statements on the sample instance *)

(** A mapping without [version]. *)
Lemma missing_version_key_witness :
  from_dict_to_native (VDict OrderedMap [(VStr "interdependencies", VNone)]) store
  = (Raise (KeyError (VStr "version")), store).
Proof.
  refine (proj1 (missing_version_key OrderedMap [(VStr "interdependencies", VNone)]
                   store _)).
  reflexivity.
Defined.

(** The object made for the mapping of the sample v0 document. *)
Lemma from_dict_to_native_new_object_witness :
  ∃ x o, getitem (old_to_dict doc0) "version" = Ok x
         ∧ py_eq_int x (version o) = true
         ∧ store !! 3%positive = None
         ∧ <[3%positive := obj0]> store = <[3%positive := o]> store
         ∧ ∀ l o', store !! l = Some o' → <[3%positive := obj0]> store !! l = Some o'.
Proof.
  apply (from_dict_to_native_new_object (old_to_dict doc0) store
           (<[3%positive := obj0]> store) 3%positive).
  by vm_compute.
Defined.

(** The mapping of the sample document of version 1. *)
Lemma from_dict_to_current_of_current_witness :
  from_dict_to_current (new_to_dict doc1) store
  = from_dict_to_native (new_to_dict doc1) store.
Proof.
  apply (from_dict_to_current_of_current (new_to_dict doc1) (VInt 1) store);
    reflexivity.
Defined.

(** The mapping of the sample v0 document. *)
Lemma from_dict_to_current_of_v0_witness :
  ∃ native r,
    from_dict_to_native (old_to_dict doc0) store
    = (Ok native, <[native := obj0]> store)
    ∧ from_dict_to_current (old_to_dict doc0) store
      = (Ok r, <[r := current_obj (docs := documents) (upgrade doc0)]>
                 (<[native := obj0]> store))
    ∧ store !! native = None ∧ store !! r = None ∧ native ≠ r.
Proof.
  apply (from_dict_to_current_of_v0 (docs := documents) (old_to_dict doc0) (VInt 0)
           doc0 store);
    reflexivity.
Defined.

(** The sample document of version 1 written at version 1. *)
Lemma to_dict_as_version_own_version_witness :
  to_dict_as_version 2%positive 1 store = (Ok (new_to_dict doc1), store).
Proof.
  apply (to_dict_as_version_own_version store 2%positive obj1). by vm_compute.
Defined.

(** The sample document of version 1 stored and read back: the split
    of its parameters is lost. *)
Lemma storage_roundtrip_witness :
  ∃ r h',
    (d ← to_dict_for_storage 2%positive; from_dict_to_current d) store = (Ok r, h')
    ∧ r ≠ 2%positive ∧ h' !! 2%positive = Some obj1
    ∧ h' !! r = Some (converted (converted obj1 STORAGE_VERSION) CURRENT_VERSION)
    ∧ ∀ d, obj1 = current_obj d → v0_to_v1 (v1_to_v0 d) = d → h' !! r = Some obj1.
Proof.
  apply (storage_roundtrip store 2%positive obj1).
  - by vm_compute.
  - split; reflexivity.
Defined.

(** The sample document of version 1 as JSON at version 0 and at
    version 7. *)
Lemma to_json_as_version_spec_witness :
  (known_version 0 →
     ∃ h', to_json_as_version 2%positive 0 store
           = (json_dumps (to_dict (converted obj1 0)), h'))
  ∧ (¬ known_version 7 →
     to_json_as_version 2%positive 7 store
     = (Raise (UnsupportedConversionError (1, 7)), store)).
Proof.
  split.
  - refine (proj1 (to_json_as_version_spec store 2%positive obj1 0 _)). by vm_compute.
  - refine (proj2 (to_json_as_version_spec store 2%positive obj1 7 _)). by vm_compute.
Defined.


(** The JSON text of the empty list. *)
Lemma from_json_without_mapping_witness :
  ∃ msg,
    from_json_to_native (libs := SampleTexts.text_libraries) "[]" store
    = (Raise (TypeError msg), store)
    ∧ from_json_to_current (libs := SampleTexts.text_libraries) "[]" store
      = (Raise (TypeError msg), store).
Proof.
  refine (proj2 (from_json_without_mapping (libs := SampleTexts.text_libraries)
                   "[]" store) (VList []) _ _);
    reflexivity.
Defined.

(** The empty YAML document. *)
Lemma from_yaml_scalar_document_witness :
  from_yaml_to_current (libs := SampleTexts.text_libraries) EmptyString store
  = (Raise (TypeError "object is not iterable"), store).
Proof.
  apply (from_yaml_scalar_document (libs := SampleTexts.text_libraries)
           EmptyString VNone store);
    reflexivity.
Defined.

(** ** The driver on the small instrument *)

Module KeysightB1517AOnBench.
Import KeysightB1517A KeysightB1517A.Bench KeysightB1517AFacts.

(** Voltage forced on the new module, then current. *)
Lemma force_kinds_exclusive_witness :
  _set_current 0.5%float (_set_voltage 1.5%float smu).2
  = (Raises current_error, (_set_voltage 1.5%float smu).2).
Proof.
  refine (proj1 (force_kinds_exclusive smu (_set_voltage 1.5%float smu).2
                   1.5%float 0.5%float) _).
  reflexivity.
Defined.

(** The builder refuses [DV] on the new module. *)
Lemma set_voltage_records_range_first_witness :
  ∃ self', _set_voltage (ins := refusing) 1.5%float (__init__ (ins := refusing) 1)
           = (Raises (Builtin (ValueError "refused")), self')
           ∧ io self' = []
           ∧ output_range (_source_config self') = Some (VRange 0)
           ∧ _set_current (ins := refusing) 0.5%float self'
             = (Raises current_error, self').
Proof.
  apply (set_voltage_records_range_first (ins := refusing) (__init__ (ins := refusing) 1)
           1.5%float 0.5%float (Builtin (ValueError "refused")));
    reflexivity.
Defined.

(** A voltage range with a current compliance range, then voltage. *)
Lemma source_config_then_force_witness :
  _set_voltage 1.5%float
    (source_config (VRange 12) (Some (NFloat 0.125%float)) None (Some (IRange 20)) smu).2
  = (Returns tt,
     with_event (Write "DV 1, 12, 20")
       (source_config (VRange 12) (Some (NFloat 0.125%float)) None
          (Some (IRange 20)) smu).2).
Proof.
  refine (proj1 (source_config_then_force smu _ 12 (Some (NFloat 0.125%float)) None
                   (Some (IRange 20)) 1.5%float _)).
  reflexivity.
Defined.

(** An interval of 125 ms and 1000 samples. *)
Lemma timing_parameters_then_samples_witness :
  _get_number_of_samples (timing_parameters 0%float 0.125%float 1000 None smu).2
  = (Returns 1000, (timing_parameters 0%float 0.125%float 1000 None smu).2).
Proof.
  refine (proj1 (proj2 (proj1 (timing_parameters_then_samples smu 0%float 0.125%float
                                 1000 None) _ _))).
  reflexivity.
Defined.

(** The builder refuses [MT]. *)
Lemma timing_parameters_records_first_witness :
  ∃ self', timing_parameters (ins := refusing) 0%float 0.125%float 1000 None
             (__init__ (ins := refusing) 1)
           = (Raises (Builtin (ValueError "refused")), self')
           ∧ io self' = []
           ∧ _get_number_of_samples (ins := refusing) self' = (Returns 1000, self').
Proof.
  apply (timing_parameters_records_first (ins := refusing) (__init__ (ins := refusing) 1)
           0%float 0.125%float 1000 None (Builtin (ValueError "refused")));
    reflexivity.
Defined.

(** An interval above the upper bound is refused and nothing changes. *)
Example interval_out_of_bounds :
  timing_parameters 0%float 100%float 5 None smu
  = (Raises (Builtin (ValueError "value is outside the bounds")), smu).
Proof. reflexivity. Qed.

(** A compliance range of the kind of the output range is refused. *)
Example compliance_range_of_same_kind :
  (source_config (VRange 12) None None (Some (VRange 11)) smu).2 = smu.
Proof. reflexivity. Qed.
End KeysightB1517AOnBench.
